(** * cchat: the authentication core of the auth service

    A shallow embedding of
      - package [jwt]  (NewPairTokens, VerifyAccessToken, VerifyRefreshToken,
        extractUserFromClaims),
      - package [auth] (AuthService.Login, RegisterNewUser, ChangePassword,
        ResetPassword) over its two provider interfaces,
      - package [postgres] of the auth service (the credential store),
      - the status mapping of the session handler,
      - the part of the user service that creates and looks up identities,
    followed by the properties of the specification that concern them.

    Conventions.  Go's [(T, error)] results of the provider interfaces are
    values of [Result]; functions with several results keep Go's tuple, with
    [nil] as [None].  [time.Now()], the random source, both providers and
    the logger are threaded through one explicit [World].  The third-party
    libraries (uuid, bcrypt, gofakeit) are interfaces; golang-jwt is
    modelled symbolically, a signature being the MAC of its own token under
    a key or not.  Time is counted in whole seconds, which loses nothing:
    every expiry the code writes or the library compares is a whole number
    of seconds. *)

From Stdlib Require Import ZArith NArith String List Bool Lia.
From Stdlib Require Import HexadecimalString HexadecimalN.
From stdpp Require Import base option gmap strings list.

Local Open Scope Z_scope.
Local Open Scope string_scope.

(* ===================================================================== *)
(** ** Go errors: sentinels, wrapping, [errors.Is]                        *)
(* ===================================================================== *)

(** A package-level [errors.New] value is identified by the variable that
    holds it (two sentinels with equal text are different errors);
    [Fresh] is an [errors.New] made at the point of return;
    [Wrap op e] is [fmt.Errorf("%s: %w", op, e)]. *)
Inductive error : Type :=
| Sentinel (var : string)
| Fresh (msg : string)
| Wrap (op : string) (e : error).

#[global] Instance error_eq_dec : EqDecision error.
Proof. solve_decision. Defined.

Fixpoint errors_Is (err target : error) : bool :=
  if decide (err = target) then true
  else match err with
       | Wrap _ e => errors_Is e target
       | _ => false
       end.

Inductive Result (A : Type) : Type :=
| Ok (a : A)
| Err (e : error).
Arguments Ok {A} a.
Arguments Err {A} e.

(* ===================================================================== *)
(** ** Third-party libraries, as interfaces                               *)
(* ===================================================================== *)

(** github.com/google/uuid: the value type, its canonical text and the
    parser of that text. *)
Class UUIDLib : Type := {
  UUID : Type;
  UUID_eq_dec :: EqDecision UUID;
  UUID_countable :: Countable UUID;
  uuid_New : N -> UUID;                 (* uuid.New(), from random bits *)
  uuid_String : UUID -> string;
  uuid_Parse : string -> option UUID
}.

(** What the library guarantees: the text of a value parses back to it. *)
Definition uuid_roundtrip `{UUIDLib} : Prop :=
  forall u : UUID, uuid_Parse (uuid_String u) = Some u.

(** golang.org/x/crypto/bcrypt.  Passwords and hashes are byte strings;
    [GenerateFromPassword] consumes randomness for its salt. *)
Class Bcrypt : Type := {
  GenerateFromPassword : N -> string -> Z -> Result string;
  CompareHashAndPassword : string -> string -> option error
}.

Definition bcrypt_DefaultCost : Z := 10.

(** github.com/brianvoe/gofakeit/v6:
    [Password(lower, upper, numeric, special, space, num)] and [Username()],
    each from random bits. *)
Class Gofakeit : Type := {
  gofakeit_Password : N -> bool -> bool -> bool -> bool -> bool -> Z -> string;
  gofakeit_Username : N -> string
}.

(* ===================================================================== *)
(** ** Domain models (internal/domain/models/user.go)                     *)
(* ===================================================================== *)

Module models.
Section WithUUID.
Context `{UUIDLib}.

Record NormalizedUser : Type := mkNormalizedUser {
  nu_UUID : UUID;
  nu_Username : string;
  nu_Email : string
}.

Record LoginUser : Type := mkLoginUser {
  lu_Email : string;
  lu_Password : string
}.

Record RegisterUser : Type := mkRegisterUser {
  ru_Email : string;
  ru_Password : string
}.

Record NewPassword : Type := mkNewPassword {
  np_Email : string;
  np_PreviousPassword : string;
  np_NewPassword : string
}.

Record ResetPassword : Type := mkResetPassword {
  rp_Email : string
}.
End WithUUID.
End models.
Import models.

(* ===================================================================== *)
(** ** The world a call runs in                                           *)
(* ===================================================================== *)

Inductive Level : Type := LevelInfo | LevelWarn | LevelError.

Inductive Attr : Type :=
| AString (key value : string)   (* slog.String(key, value) *)
| AErr (e : error).              (* sl.Err(err) *)

(** What the service does to its collaborators (the logger and the two
    providers held by [AuthService]), with the arguments it passes. *)
Inductive Call `{UUIDLib} : Type :=
| LogRecord (level : Level) (msg : string) (attrs : list Attr)
| UserGetUser (email : string)
| UserCreateUser (email : string)
| AuthRegister (id : UUID) (passHash : string)
| AuthLogin (uuid : UUID)
| AuthPassword (uuid : UUID)
| AuthChangePassword (uid : UUID) (newPasswordHash : string).

(** [clock] is the wall clock in Unix seconds; [elapse] lists how many
    seconds pass after each successive reading (none once exhausted).
    [entropy] feeds the random sources.  [users] and [store] are the states
    behind the two providers of the service.  [trace] records, in order,
    the calls made on the collaborators. *)
Record World `{UUIDLib} (U S : Type) : Type := mkWorld {
  clock : Z;
  elapse : list N;
  entropy : list N;
  users : U;
  store : S;
  trace : list Call
}.
Arguments mkWorld {_ U S}.
Arguments clock {_ U S}.
Arguments elapse {_ U S}.
Arguments entropy {_ U S}.
Arguments users {_ U S}.
Arguments store {_ U S}.
Arguments trace {_ U S}.

Definition M `{UUIDLib} (U S A : Type) : Type := World U S -> A * World U S.

Definition ret `{UUIDLib} {U S A} (a : A) : M U S A := fun w => (a, w).

Definition bind `{UUIDLib} {U S A B} (c : M U S A) (k : A -> M U S B) : M U S B :=
  fun w => let (a, w') := c w in k a w'.

(** stdpp's monad notation: [x ← c; k], ['(x, y) ← c; k], [c;; k]. *)
#[global] Instance M_ret `{UUIDLib} {U S} : MRet (M U S) := fun A a => ret a.
#[global] Instance M_bind `{UUIDLib} {U S} : MBind (M U S) := fun A B k c => bind c k.

Section Effects.
Context `{UUIDLib} {U S : Type}.

(** [time.Now()], in whole seconds. *)
Definition time_Now : M U S Z := fun w =>
  (clock w,
   match elapse w with
   | [] => w
   | d :: ds => mkWorld (clock w + Z.of_N d) ds (entropy w) (users w) (store w) (trace w)
   end).

(** One draw from the random source. *)
Definition rand_Read : M U S N := fun w =>
  match entropy w with
  | [] => (0%N, w)
  | r :: rs => (r, mkWorld (clock w) (elapse w) rs (users w) (store w) (trace w))
  end.

Definition record (c : Call) : M U S unit := fun w =>
  (tt, mkWorld (clock w) (elapse w) (entropy w) (users w) (store w) (trace w ++ [c])).

(** Run a provider call on the provider's own state. *)
Definition on_users {A} (f : U -> A * U) : M U S A := fun w =>
  let (a, u') := f (users w) in
  (a, mkWorld (clock w) (elapse w) (entropy w) u' (store w) (trace w)).

Definition on_store {A} (f : S -> A * S) : M U S A := fun w =>
  let (a, s') := f (store w) in
  (a, mkWorld (clock w) (elapse w) (entropy w) (users w) s' (trace w)).
End Effects.

(* ===================================================================== *)
(** ** github.com/golang-jwt/jwt/v5, as far as the service uses it        *)
(* ===================================================================== *)

Module jwtlib.

(** A decoded JSON claim value.  A NumericDate is truncated to whole
    seconds by the library, so a number is kept as an integer. *)
Inductive Value : Type :=
  | VNull
  | VBool (b : bool)
  | VNumber (n : Z)
  | VString (s : string)
  | VArray
  | VObject.

Abbreviation MapClaims := (gmap string Value).

(** The [alg] header: the HMAC family, or anything else. *)
Inductive SigningMethod : Type :=
  | SigningMethodHS256
  | SigningMethodHS384
  | SigningMethodHS512
  | SigningMethodOther (alg : string).

Definition is_SigningMethodHMAC (m : SigningMethod) : bool :=
  match m with
  | SigningMethodOther _ => false
  | _ => true
  end.

(** The third segment, symbolically: either the MAC of this token's own
    first two segments under [key] with the hash of [m], or other bytes. *)
Inductive Signature : Type :=
  | MAC (m : SigningMethod) (key : string)
  | NotMAC (raw : string).

(** A token string, up to the library's decoding of it: text that is not
    a three-segment compact serialization with a JSON header and a JSON
    object as payload, or such a serialization. *)
Inductive TokenString : Type :=
  | Opaque (raw : string)
  | Compact (alg : SigningMethod) (claims : MapClaims) (sig : Signature).

#[global] Instance Value_eq_dec : EqDecision Value.
Proof. solve_decision. Defined.
#[global] Instance SigningMethod_eq_dec : EqDecision SigningMethod.
Proof. solve_decision. Defined.
#[global] Instance Signature_eq_dec : EqDecision Signature.
Proof. solve_decision. Defined.
#[global] Instance TokenString_eq_dec : EqDecision TokenString.
Proof. solve_decision. Defined.

Definition ErrTokenMalformed : error := Sentinel "jwt/v5.ErrTokenMalformed".
Definition ErrTokenUnverifiable : error := Sentinel "jwt/v5.ErrTokenUnverifiable".
Definition ErrTokenSignatureInvalid : error := Sentinel "jwt/v5.ErrTokenSignatureInvalid".
Definition ErrTokenExpired : error := Sentinel "jwt/v5.ErrTokenExpired".
Definition ErrTokenNotValidYet : error := Sentinel "jwt/v5.ErrTokenNotValidYet".
Definition ErrTokenInvalidClaims : error := Sentinel "jwt/v5.ErrTokenInvalidClaims".

(** [*jwt.Token] after parsing: the claims it decoded and its verdict. *)
Record Token : Type := mkToken {
  Claims : MapClaims;
  Valid : bool
}.

(** [jwt.New(method)] followed by filling the claims and
    [SignedString(key)]: an HMAC key of any length signs without error. *)
Definition SignedString (method : SigningMethod) (claims : MapClaims) (key : string)
  : Result TokenString :=
  if is_SigningMethodHMAC method
  then Ok (Compact method claims (MAC method key))
  else Err (Sentinel "jwt/v5.ErrInvalidKeyType").

(** [method.Verify(signingString, sig, key)] with a [[]byte] key. *)
Definition method_Verify (method : SigningMethod) (sig : Signature) (key : string) : bool :=
  is_SigningMethodHMAC method && bool_decide (sig = MAC method key).

(** The validator's checks on registered claims, at time [now]:
    [exp] and [nbf] are optional; when present they must be numbers,
    [now] must be before [exp] and not before [nbf]. *)
Definition verifyExpiresAt (claims : MapClaims) (now : Z) : option error :=
  match claims !! "exp" with
  | None => None
  | Some (VNumber exp) => if (now <? exp)%Z then None else Some ErrTokenExpired
  | Some _ => Some ErrTokenInvalidClaims
  end.

Definition verifyNotBefore (claims : MapClaims) (now : Z) : option error :=
  match claims !! "nbf" with
  | None => None
  | Some (VNumber nbf) => if (now <? nbf)%Z then Some ErrTokenNotValidYet else None
  | Some _ => Some ErrTokenInvalidClaims
  end.

Definition Validate (claims : MapClaims) (now : Z) : option error :=
  match verifyExpiresAt claims now with
  | Some e => Some e
  | None => verifyNotBefore claims now
  end.

Section Parse.
Context `{UUIDLib} {U S : Type}.

(** [jwt.ParseWithClaims(tokenString, claims, keyFunc)] (and
    [jwt.Parse], which is the same with a fresh MapClaims): decode,
    ask [keyFunc] for the key, verify the signature, then validate the
    claims against the clock.  The claims are filled as soon as the
    payload decodes, whatever happens afterwards. *)
Definition ParseWithClaims (tokenString : TokenString)
    (keyFunc : SigningMethod -> Result string) : M U S (Token * option error) :=
  match tokenString with
  | Opaque _ => ret (mkToken ∅ false, Some ErrTokenMalformed)
  | Compact alg claims sig =>
      match keyFunc alg with
      | Err e => ret (mkToken claims false, Some (Wrap "token is unverifiable" ErrTokenUnverifiable))
      | Ok key =>
          if method_Verify alg sig key then
            now ← time_Now;
            match Validate claims now with
            | Some e => ret (mkToken claims false, Some e)
            | None => ret (mkToken claims true, None)
            end
          else ret (mkToken claims false, Some ErrTokenSignatureInvalid)
      end
  end.
End Parse.
End jwtlib.

(* ===================================================================== *)
(** ** package jwt (auth-service/internal/lib/jwt)                        *)
(* ===================================================================== *)

Module jwt.
Import jwtlib.

(** Durations in seconds. *)
Definition time_Minute : Z := 60.
Definition accessDuration : Z := 15 * time_Minute.
Definition refreshDuration : Z := 43200 * time_Minute.

Definition ErrUserUnauthorized : error := Sentinel "jwt.ErrUserUnauthorized".

(** The empty string [""] returned in place of a token. *)
Definition no_token : TokenString := Opaque "".

(** The key function [VerifyAccessToken] hands to the parser: only the HMAC
    family is accepted, the key is the access secret. *)
Definition accessKeyFunc (method : SigningMethod) : Result string :=
  if is_SigningMethodHMAC method then Ok "somesecret"
  else Err (Fresh "unexpected signing method").

(** The key function of [VerifyRefreshToken]: the refresh secret, whatever
    the method. *)
Definition refreshKeyFunc (method : SigningMethod) : Result string := Ok "secret".

Section WithLibraries.
Context `{UUIDLib} {U S : Type}.

Definition NewPairTokens (user : NormalizedUser)
  : M U S (TokenString * TokenString * option error) :=
  let claims : MapClaims := ∅ in
  let claims := <["uuid" := VString (uuid_String (nu_UUID user))]> claims in
  let claims := <["username" := VString (nu_Username user)]> claims in
  let claims := <["email" := VString (nu_Email user)]> claims in
  now ← time_Now;
  let claims := <["exp" := VNumber (now + accessDuration)]> claims in
  match SignedString SigningMethodHS256 claims "somesecret" with
  | Err err => ret (no_token, no_token, Some err)
  | Ok accessTokenString =>
      let claims : MapClaims := ∅ in
      now ← time_Now;
      let claims := <["exp" := VNumber (now + refreshDuration)]> claims in
      match SignedString SigningMethodHS256 claims "secret" with
      | Err err => ret (no_token, no_token, Some err)
      | Ok refreshTokenString => ret (accessTokenString, refreshTokenString, None)
      end
  end.

Definition extractUserFromClaims (claims : MapClaims) : Result NormalizedUser :=
  match claims !! "uuid" with
  | Some (VString uuidStr) =>
      match uuid_Parse uuidStr with
      | None => Err (Fresh "failed to parse 'uuid' from token claims")
      | Some userUUID =>
          match claims !! "username" with
          | Some (VString username) =>
              match claims !! "email" with
              | Some (VString email) => Ok (mkNormalizedUser userUUID username email)
              | _ => Err (Fresh "missing or invalid 'email' in token claims")
              end
          | _ => Err (Fresh "missing or invalid 'username' in token claims")
          end
      end
  | _ => Err (Fresh "missing or invalid 'uuid' in token claims")
  end.

Definition VerifyRefreshToken (user : NormalizedUser) (refreshToken : TokenString)
  : M U S (TokenString * TokenString * option NormalizedUser * option error) :=
  '(refreshtoken, err) ← ParseWithClaims refreshToken refreshKeyFunc;
  match err with
  | Some err => ret (no_token, no_token, None, Some err)
  | None =>
      if negb (Valid refreshtoken) then
        ret (no_token, no_token, None, Some ErrUserUnauthorized)
      else
        '(newAccessToken, newRefreshToken, err) ← NewPairTokens user;
        match err with
        | Some err => ret (no_token, no_token, None, Some err)
        | None => ret (newAccessToken, newRefreshToken, Some user, None)
        end
  end.

Definition VerifyAccessToken (accessToken refreshToken : TokenString)
  : M U S (TokenString * TokenString * option NormalizedUser * option error) :=
  '(accesstoken, err) ← ParseWithClaims accessToken accessKeyFunc;
  let claims := Claims accesstoken in
  if bool_decide (err <> None) || negb (Valid accesstoken) then
    match extractUserFromClaims claims with
    | Err userErr => ret (no_token, no_token, None, Some ErrUserUnauthorized)
    | Ok user => VerifyRefreshToken user refreshToken
    end
  else
    match extractUserFromClaims claims with
    | Err userErr => ret (no_token, no_token, None, Some userErr)
    | Ok user => ret (no_token, no_token, Some user, None)
    end.

End WithLibraries.
End jwt.

(* ===================================================================== *)
(** ** package storage (auth-service/internal/provider): the sentinels    *)
(* ===================================================================== *)

Module storage.
Definition ErrUserNotFound : error := Sentinel "storage.ErrUserNotFound".
Definition ErrUserExists : error := Sentinel "storage.ErrUserExists".
End storage.

(* ===================================================================== *)
(** ** The provider interfaces of package auth                            *)
(* ===================================================================== *)

(** [type AuthProvider interface], over the state [S] behind it. *)
Class AuthProvider `{UUIDLib} (S : Type) : Type := {
  auth_Register : UUID -> string -> S -> option error * S;
  auth_Login : UUID -> S -> Result string * S;
  auth_Password : UUID -> S -> Result string * S;
  auth_ChangePassword : UUID -> string -> S -> option error * S
}.

(** [type UserProvider interface], over the state [U] behind it. *)
Class UserProvider `{UUIDLib} (U : Type) : Type := {
  user_GetUser : string -> U -> Result NormalizedUser * U;
  user_CreateUser : string -> U -> Result NormalizedUser * U
}.

(* ===================================================================== *)
(** ** package postgres of the auth service (credential.go)               *)
(* ===================================================================== *)

Module postgres.
Section WithUUID.
Context `{UUIDLib}.

(** Modelled from the spec: the schema of the [credentials] table is not
    among the sources.  Following sections 3 and 4.2 (one Credential per
    Identity; create answers ok or conflict) [user_id] is a key, so the
    table is a finite map from [user_id] to [password_hash].  The two
    timestamp columns are written by INSERT and read by nothing; they are
    left out.  [pool_up = false] makes [pool.Begin] fail. *)
Record Storage : Type := mkStorage {
  pool_up : bool;
  credentials : gmap UUID string
}.

Definition pgx_ErrNoRows : error := Sentinel "pgx.ErrNoRows".
Definition pg_unique_violation : error := Fresh "duplicate key value violates unique constraint (SQLSTATE 23505)".
Definition pool_closed : error := Fresh "failed to connect to the database".

Definition Register (uid : UUID) (passHash : string) (s : Storage) : option error * Storage :=
  let op := "storage.postgres.credential.Register" in
  if negb (pool_up s) then (Some (Wrap op pool_closed), s)
  else
    (* INSERT INTO credentials(user_id, password_hash, ...) RETURNING user_id *)
    match credentials s !! uid with
    | Some _ => (Some (Wrap op pg_unique_violation), s)
    | None => (None, mkStorage (pool_up s) (<[uid := passHash]> (credentials s)))
    end.

Definition Login (uid : UUID) (s : Storage) : Result string * Storage :=
  let op := "storage.postgres.user.Password" in
  if negb (pool_up s) then (Err (Wrap op pool_closed), s)
  else
    (* SELECT password_hash FROM credentials WHERE user_id = $1 *)
    match credentials s !! uid with
    | None => (Err (Wrap op pgx_ErrNoRows), s)
    | Some password => (Ok password, s)
    end.

Definition Password (uid : UUID) (s : Storage) : Result string * Storage :=
  let op := "storage.postgres.credential.Password" in
  if negb (pool_up s) then (Err (Wrap op pool_closed), s)
  else
    match credentials s !! uid with
    | None => (Err (Wrap op pgx_ErrNoRows), s)
    | Some password => (Ok password, s)
    end.

Definition ChangePassword (uid : UUID) (newPasswordHash : string) (s : Storage)
  : option error * Storage :=
  let op := "storage.postgres.user.ChangePassword" in
  if negb (pool_up s) then (Some (Wrap op pool_closed), s)
  else
    (* UPDATE credentials SET password_hash = $1 WHERE user_id = $2 RETURNING user_id *)
    match credentials s !! uid with
    | None => (Some (Wrap op pgx_ErrNoRows), s)
    | Some _ => (None, mkStorage (pool_up s) (<[uid := newPasswordHash]> (credentials s)))
    end.

#[global] Instance Storage_AuthProvider : AuthProvider Storage := {|
  auth_Register := Register;
  auth_Login := Login;
  auth_Password := Password;
  auth_ChangePassword := ChangePassword
|}.

End WithUUID.
End postgres.

(* ===================================================================== *)
(** ** package auth (auth-service/internal/services/auth)                 *)
(* ===================================================================== *)

Module auth.
Import jwtlib.

Definition ErrInvalidCredentials : error := Sentinel "auth.ErrInvalidCredentials".
Definition ErrFailedToGetUser : error := Sentinel "auth.ErrFailedToGetUser".
Definition ErrInvalidAppID : error := Sentinel "auth.ErrInvalidAppID".
Definition ErrUserExists : error := Sentinel "auth.ErrUserExists".
Definition ErrUserNotFound : error := Sentinel "auth.ErrUserNotFound".

Section AuthService.
Context `{UUIDLib} `{Bcrypt} `{Gofakeit}.
Context {U S : Type} `{!UserProvider U} `{!AuthProvider S}.

(** [a.log.With(slog.String("op", op), slog.String("email", email))]. *)
Definition log_With (op email : string) (l : Level) (msg : string) (attrs : list Attr)
  : M U S unit :=
  record (LogRecord l msg ([AString "op" op; AString "email" email] ++ attrs)%list).

(** The calls [a.user.…] and [a.auth.…]. *)
Definition a_user_GetUser (email : string) : M U S (Result NormalizedUser) :=
  record (UserGetUser email);; on_users (user_GetUser email).
Definition a_user_CreateUser (email : string) : M U S (Result NormalizedUser) :=
  record (UserCreateUser email);; on_users (user_CreateUser email).
Definition a_auth_Register (id : UUID) (passHash : string) : M U S (option error) :=
  record (AuthRegister id passHash);; on_store (auth_Register id passHash).
Definition a_auth_Login (uuid : UUID) : M U S (Result string) :=
  record (AuthLogin uuid);; on_store (auth_Login uuid).
Definition a_auth_Password (uuid : UUID) : M U S (Result string) :=
  record (AuthPassword uuid);; on_store (auth_Password uuid).
Definition a_auth_ChangePassword (uid : UUID) (newPasswordHash : string) : M U S (option error) :=
  record (AuthChangePassword uid newPasswordHash);; on_store (auth_ChangePassword uid newPasswordHash).

(** [bcrypt.GenerateFromPassword(password, bcrypt.DefaultCost)]. *)
Definition bcrypt_GenerateFromPassword (password : string) : M U S (Result string) :=
  salt ← rand_Read;
  ret (GenerateFromPassword salt password bcrypt_DefaultCost).

Definition Login (loginUser : LoginUser)
  : M U S (option NormalizedUser * TokenString * TokenString * option error) :=
  let op := "services.auth.Login" in
  let log := log_With op (lu_Email loginUser) in
  log LevelInfo "attempting to login user" [];;
  r ← a_user_GetUser (lu_Email loginUser);
  match r with
  | Err err =>
      if errors_Is err storage.ErrUserNotFound then
        log LevelWarn "user not found" [AErr err];;
        ret (None, jwt.no_token, jwt.no_token, Some (Wrap op ErrInvalidCredentials))
      else
        log LevelError "failed to get user" [AErr err];;
        ret (None, jwt.no_token, jwt.no_token, Some (Wrap op err))
  | Ok user =>
      r ← a_auth_Login (nu_UUID user);
      match r with
      | Err err =>
          if errors_Is err storage.ErrUserNotFound then
            log LevelWarn "user not found" [AErr err];;
            ret (None, jwt.no_token, jwt.no_token, Some (Wrap op ErrInvalidCredentials))
          else
            log LevelError "failed to get user" [AErr err];;
            ret (None, jwt.no_token, jwt.no_token, Some (Wrap op err))
      | Ok passHash =>
          match CompareHashAndPassword passHash (lu_Password loginUser) with
          | Some err =>
              log LevelWarn "invalid credentials" [AErr err];;
              ret (None, jwt.no_token, jwt.no_token, Some (Wrap op ErrInvalidCredentials))
          | None =>
              log LevelInfo "user logged in successfully" [];;
              '(accessToken, refreshToken, err) ← jwt.NewPairTokens user;
              match err with
              | Some err =>
                  log LevelError "failed to generate tokens" [AErr err];;
                  ret (None, jwt.no_token, jwt.no_token, Some (Wrap op err))
              | None => ret (Some user, accessToken, refreshToken, None)
              end
          end
      end
  end.

Definition RegisterNewUser (registerUser : RegisterUser)
  : M U S (option NormalizedUser * TokenString * TokenString * option error) :=
  let op := "services.auth.RegisterNewUser" in
  let log := log_With op (ru_Email registerUser) in
  log LevelInfo "registering user" [];;
  r ← a_user_CreateUser (ru_Email registerUser);
  match r with
  | Err err =>
      log LevelError "failed to get user" [AErr err];;
      ret (None, jwt.no_token, jwt.no_token, Some (Wrap op ErrFailedToGetUser))
  | Ok user =>
      r ← bcrypt_GenerateFromPassword (ru_Password registerUser);
      match r with
      | Err err =>
          log LevelError "failed to generate password hash" [AErr err];;
          ret (None, jwt.no_token, jwt.no_token, Some (Wrap op err))
      | Ok passHash =>
          err ← a_auth_Register (nu_UUID user) passHash;
          match err with
          | Some err =>
              if errors_Is err storage.ErrUserExists then
                log LevelWarn "user already exists" [AErr err];;
                ret (None, jwt.no_token, jwt.no_token, Some (Wrap op ErrUserExists))
              else
                log LevelError "failed to save user" [AErr err];;
                ret (None, jwt.no_token, jwt.no_token, Some (Wrap op err))
          | None =>
              log LevelInfo "user registered" [];;
              '(accessToken, refreshToken, err) ← jwt.NewPairTokens user;
              match err with
              | Some err =>
                  log LevelError "failed to generate tokens" [AErr err];;
                  ret (None, jwt.no_token, jwt.no_token, Some (Wrap op err))
              | None => ret (Some user, accessToken, refreshToken, None)
              end
          end
      end
  end.

Definition ChangePassword (newPassword : NewPassword) : M U S (option error) :=
  let op := "services.auth.ChangePassword" in
  let log := log_With op (np_Email newPassword) in
  log LevelInfo "changing user password" [];;
  r ← a_user_GetUser (np_Email newPassword);
  match r with
  | Err err =>
      if errors_Is err storage.ErrUserNotFound then
        log LevelWarn "user not found" [AErr err];;
        ret (Some (Wrap op ErrUserNotFound))
      else
        log LevelError "failed to get user" [AErr err];;
        ret (Some (Wrap op err))
  | Ok user =>
      r ← a_auth_Password (nu_UUID user);
      match r with
      | Err err =>
          log LevelError "failed to get old password" [AErr err];;
          ret (Some (Wrap op err))
      | Ok oldPasswordHash =>
          match CompareHashAndPassword oldPasswordHash (np_PreviousPassword newPassword) with
          | Some _ =>
              log LevelError "failed to compare passwords" [AErr ErrInvalidCredentials];;
              ret (Some (Wrap op ErrInvalidCredentials))
          | None =>
              r ← bcrypt_GenerateFromPassword (np_NewPassword newPassword);
              match r with
              | Err err =>
                  log LevelError "failed to generate password hash" [AErr err];;
                  ret (Some (Wrap op err))
              | Ok passHash =>
                  err ← a_auth_ChangePassword (nu_UUID user) passHash;
                  match err with
                  | Some err =>
                      if errors_Is err storage.ErrUserExists then
                        log LevelWarn "user already exists" [AErr err];;
                        ret (Some (Wrap op ErrUserExists))
                      else
                        log LevelError "failed to save user" [AErr err];;
                        ret (Some (Wrap op err))
                  | None =>
                      log LevelInfo "password changed successfully" [];;
                      ret None
                  end
              end
          end
      end
  end.

Definition ResetPassword (resetPassword : ResetPassword) : M U S (option error) :=
  let op := "services.auth.ResetPassword" in
  let log := log_With op (rp_Email resetPassword) in
  log LevelInfo "changing user password" [];;
  r ← a_user_GetUser (rp_Email resetPassword);
  match r with
  | Err err =>
      if errors_Is err storage.ErrUserNotFound then
        log LevelWarn "user not found" [AErr err];;
        ret (Some (Wrap op ErrUserNotFound))
      else
        log LevelError "failed to get user" [AErr err];;
        ret (Some (Wrap op err))
  | Ok user =>
      seed ← rand_Read;
      let key := gofakeit_Password seed true true true true false 14 in
      r ← bcrypt_GenerateFromPassword key;
      match r with
      | Err err =>
          log LevelError "failed to generate password hash" [AErr err];;
          ret (Some (Wrap op err))
      | Ok passHash =>
          err ← a_auth_ChangePassword (nu_UUID user) passHash;
          match err with
          | Some err =>
              if errors_Is err storage.ErrUserExists then
                log LevelWarn "user already exists" [AErr err];;
                ret (Some (Wrap op ErrUserExists))
              else
                log LevelError "failed to save user" [AErr err];;
                ret (Some (Wrap op err))
          | None =>
              log LevelInfo "password changed successfully" [];;
              ret None
          end
      end
  end.

End AuthService.
End auth.

(* ===================================================================== *)
(** ** package session (http-server/handlers/session): CheckSession       *)
(* ===================================================================== *)

Module session.
Section WithUUID.
Context `{UUIDLib}.

Definition http_ErrNoCookie : error := Sentinel "http.ErrNoCookie".

Definition StatusOK : Z := 200.
Definition StatusUnauthorized : Z := 401.
Definition StatusInternalServerError : Z := 500.

(** The status [CheckSession] answers with, given what [cookie.CheckCookie]
    returned (package cookie is not among the sources; its result is the
    input here). *)
Definition CheckSession (checked : Result NormalizedUser) : Z :=
  match checked with
  | Err err =>
      if errors_Is err http_ErrNoCookie || errors_Is err jwt.ErrUserUnauthorized
      then StatusUnauthorized
      else StatusInternalServerError
  | Ok user => StatusOK
  end.

End WithUUID.
End session.

(* ===================================================================== *)
(** ** The user service behind [UserProvider]                             *)
(* ===================================================================== *)

Module userservice.
Section WithLibraries.
Context `{UUIDLib} `{Gofakeit}.

Definition storage_ErrUserNotFound : error := Sentinel "user-service/storage.ErrUserNotFound".
Definition ErrUserNotFound : error := Sentinel "user-service/user.ErrUserNotFound".

(** A row of the [users] table: user_id, email, username, name. *)
Record UserRow : Type := mkUserRow {
  row_user_id : UUID;
  row_email : string;
  row_username : string;
  row_name : string
}.

(** Modelled from the spec: the schema of the [users] table is not among
    the sources.  An Identity has a unique id and is looked up by email
    (section 3), and the storage code of the user service treats SQLSTATE
    23505 as "email exists" / "username exists", so user_id, email and
    username are each unique.  [rng] is the random source of the user
    service. *)
Record Directory : Type := mkDirectory {
  rows : list UserRow;
  rng : list N
}.

Definition pg_unique_violation : error :=
  Fresh "duplicate key value violates unique constraint (SQLSTATE 23505)".

Definition conflicts (uid : UUID) (email username : string) (r : UserRow) : bool :=
  bool_decide (row_user_id r = uid) || bool_decide (row_email r = email)
  || bool_decide (row_username r = username).

(** postgres.Storage.CreateUser of the user service. *)
Definition Storage_CreateUser (uid : UUID) (email username name : string) (d : Directory)
  : Result NormalizedUser * Directory :=
  let op := "storage.postgres.user.MyProfile" in
  (* INSERT INTO users(user_id, email, username, name) RETURNING user_id, email, username *)
  if existsb (conflicts uid email username) (rows d)
  then (Err (Wrap op pg_unique_violation), d)
  else (Ok (mkNormalizedUser uid username email),
        mkDirectory (rows d ++ [mkUserRow uid email username name]) (rng d)).

(** postgres.Storage.GetUserByEmail of the user service. *)
Definition Storage_GetUserByEmail (email : string) (d : Directory)
  : Result NormalizedUser * Directory :=
  let op := "storage.postgres.user.Profile" in
  (* SELECT user_id, email, username FROM users WHERE email = $1 *)
  match find (fun r => bool_decide (row_email r = email)) (rows d) with
  | None => (Err (Wrap op storage_ErrUserNotFound), d)
  | Some r => (Ok (mkNormalizedUser (row_user_id r) (row_username r) (row_email r)), d)
  end.

Definition draw (d : Directory) : N * Directory :=
  match rng d with
  | [] => (0%N, d)
  | r :: rs => (r, mkDirectory (rows d) rs)
  end.

(** UserDataService.CreateUser. *)
Definition CreateUser (email : string) (d : Directory) : Result NormalizedUser * Directory :=
  let op := "services.user.MyProfile" in
  let name := "nameless" in
  let (r1, d) := draw d in
  let username := gofakeit_Username r1 in
  let (r2, d) := draw d in
  let uid := uuid_New r2 in
  match Storage_CreateUser uid email username name d with
  | (Err err, d) => (Err (Wrap op err), d)
  | (Ok info, d) => (Ok info, d)
  end.

(** UserDataService.GetUserByEmail. *)
Definition GetUserByEmail (email : string) (d : Directory) : Result NormalizedUser * Directory :=
  let op := "services.user.GetUserByEmail" in
  match Storage_GetUserByEmail email d with
  | (Err err, d) =>
      if errors_Is err storage_ErrUserNotFound
      then (Err (Wrap op ErrUserNotFound), d)
      else (Err (Wrap op err), d)
  | (Ok info, d) => (Ok info, d)
  end.

(** The handlers of the user service: status and, on success, the body. *)
Definition Handler_CreateUser (email : string) (d : Directory)
  : (Z * option NormalizedUser) * Directory :=
  match CreateUser email d with
  | (Err err, d) => ((500, None), d)
  | (Ok info, d) => ((201, Some info), d)
  end.

Definition Handler_GetUserByEmail (email : string) (d : Directory)
  : (Z * option NormalizedUser) * Directory :=
  if bool_decide (email = "") then ((409, None), d)
  else
    match GetUserByEmail email d with
    | (Err err, d) =>
        if errors_Is err ErrUserNotFound then ((404, None), d) else ((500, None), d)
    | (Ok userInfo, d) => ((200, Some userInfo), d)
    end.

(** Modelled from the spec: the client of the user service that implements
    [UserProvider] inside the auth service is not among the sources.  It
    turns the answer of the user service into the provider's result: the
    identity on success, [storage.ErrUserNotFound] for 404 and
    [storage.ErrUserExists] for 409 (the sentinels the service tests for),
    and an opaque error for any other status. *)
Definition Client_GetUser (email : string) (d : Directory) : Result NormalizedUser * Directory :=
  let op := "api.userapi.client.GetUser" in
  match Handler_GetUserByEmail email d with
  | ((200, Some user), d) => (Ok user, d)
  | ((404, _), d) => (Err (Wrap op storage.ErrUserNotFound), d)
  | (_, d) => (Err (Wrap op (Fresh "unexpected status code")), d)
  end.

Definition Client_CreateUser (email : string) (d : Directory) : Result NormalizedUser * Directory :=
  let op := "api.userapi.client.CreateUser" in
  match Handler_CreateUser email d with
  | ((201, Some user), d) => (Ok user, d)
  | ((409, _), d) => (Err (Wrap op storage.ErrUserExists), d)
  | (_, d) => (Err (Wrap op (Fresh "unexpected status code")), d)
  end.

#[global] Instance Directory_UserProvider : UserProvider Directory := {|
  user_GetUser := Client_GetUser;
  user_CreateUser := Client_CreateUser
|}.

End WithLibraries.
End userservice.

(* ===================================================================== *)
(** ** package auth of the handlers (http-server/handlers/auth/auth.go)   *)
(* ===================================================================== *)

Module authhandler.
Import jwtlib.

Definition StatusBadRequest : Z := 400.
Definition StatusConflict : Z := 409.

Section WithLibraries.
Context `{UUIDLib} `{Bcrypt} `{Gofakeit}.
Context {U S : Type} `{!UserProvider U} `{!AuthProvider S}.

(** The [Data] of a success response: the user, or a text. *)
Inductive Data : Type :=
| DataUser (user : option NormalizedUser)
| DataString (s : string).

(** What a handler leaves on the wire: [code] is the HTTP status
    ([render.Status], 200 when the handler does not set it), [body_Status]
    the [Status] field of the JSON body, [body_Error] the [Error] of an
    ErrorResponse, [body_Data] the [Data] of a SuccessResponse, and
    [cookies] the pair handed to [cookie.SetCookie], if it was called. *)
Record Response : Type := mkResponse {
  code : Z;
  body_Status : Z;
  body_Error : option string;
  body_Data : option Data;
  cookies : option (TokenString * TokenString)
}.

Definition ErrorResponse (code status : Z) (msg : string) : Response :=
  mkResponse code status (Some msg) None None.

(** The handlers, from the point where [handlers.HandleError] (not among
    the sources) has accepted the decoded request.  The handlers' own
    [Auth] interface is served by [AuthService]. *)
Definition Login (req : LoginUser) : M U S Response :=
  '(user, accessToken, refreshToken, err) ← auth.Login req;
  match err with
  | Some err =>
      if errors_Is err auth.ErrInvalidCredentials then
        ret (ErrorResponse StatusConflict StatusConflict "invalid email or password")
      else
        ret (ErrorResponse session.StatusInternalServerError
               session.StatusInternalServerError "internal error")
  | None =>
      ret (mkResponse session.StatusOK session.StatusOK None (Some (DataUser user))
             (Some (accessToken, refreshToken)))
  end.

Definition Register (req : RegisterUser) : M U S Response :=
  '(user, accessToken, refreshToken, err) ← auth.RegisterNewUser req;
  match err with
  | Some err =>
      if errors_Is err auth.ErrUserExists then
        ret (ErrorResponse StatusConflict StatusConflict "user already exists")
      else
        ret (ErrorResponse session.StatusInternalServerError
               session.StatusInternalServerError "internal error")
  | None =>
      ret (mkResponse session.StatusOK session.StatusOK None (Some (DataUser user))
             (Some (accessToken, refreshToken)))
  end.

Definition ChangePassword (req : NewPassword) : M U S Response :=
  err ← auth.ChangePassword req;
  match err with
  | Some err =>
      if errors_Is err auth.ErrInvalidCredentials then
        ret (ErrorResponse StatusConflict StatusBadRequest "invalid email or password")
      else
        ret (ErrorResponse session.StatusInternalServerError
               session.StatusInternalServerError "internal error")
  | None =>
      ret (mkResponse session.StatusOK session.StatusOK None
             (Some (DataString "password changed successfully")) None)
  end.

End WithLibraries.
End authhandler.

(* ===================================================================== *)
(** ** package user of the user service: UpdateInfo                       *)
(* ===================================================================== *)

Module userdata.
Import jwtlib.

Definition storage_ErrEmailExists : error := Sentinel "user-service/storage.ErrEmailExists".
Definition storage_ErrUsernameExists : error :=
  Sentinel "user-service/storage.ErrUsernameExists".
Definition ErrEmailExists : error := Sentinel "user-service/user.ErrEmailExists".
Definition ErrUsernameExists : error := Sentinel "user-service/user.ErrUsernameExists".

Section WithUUID.
Context `{UUIDLib}.

Record UserInfo : Type := mkUserInfo {
  ui_UUID : UUID;
  ui_Email : string;
  ui_Username : string;
  ui_Name : string
}.

Record NewUserInfo : Type := mkNewUserInfo {
  nui_Email : string;
  nui_PreviousPassword : string;
  nui_NewPassword : string;
  nui_Username : string;
  nui_Name : string
}.

Definition InfoToNormalized (info : UserInfo) : NormalizedUser :=
  mkNormalizedUser (ui_UUID info) (ui_Username info) (ui_Email info).

(** The three methods of [type UserService interface] that UpdateInfo
    calls, over the state [P] behind it. *)
Class UserService (P : Type) : Type := {
  ChangeUsername : string -> string -> P -> Result UserInfo * P;
  ChangeEmail : string -> string -> P -> Result UserInfo * P;
  ChangeName : string -> string -> P -> Result UserInfo * P
}.

Section UpdateInfo.
Context {P S : Type} `{!UserService P}.

(** The token issuer of the user service (its package jwt is not among
    the sources). *)
Variable NewPairTokens : NormalizedUser -> M P S (TokenString * TokenString * option error).

Definition log_With (op username : string) (l : Level) (msg : string) (attrs : list Attr)
  : M P S unit :=
  record (LogRecord l msg ([AString "op" op; AString "username" username] ++ attrs)%list).

(** The last step of UpdateInfo.  The [info] that ChangeUsername returns
    is a variable of the inner block; the [info] returned is the one the
    earlier steps left. *)
Definition update_username (username : string) (newInfo : NewUserInfo)
    (info : option UserInfo)
  : M P S (option UserInfo * TokenString * TokenString * option error) :=
  let op := "services.user.UpdateInfo" in
  let log := log_With op username in
  if bool_decide (nui_Username newInfo <> "") then
    log LevelInfo "changing username" [];;
    r ← on_users (ChangeUsername username (nui_Username newInfo));
    match r with
    | Err err =>
        if errors_Is err storage_ErrUsernameExists then
          log LevelError "username already exists" [AErr err];;
          ret (None, jwt.no_token, jwt.no_token, Some (Wrap op ErrUsernameExists))
        else
          log LevelError "failed to change username" [AErr err];;
          ret (None, jwt.no_token, jwt.no_token, Some (Wrap op err))
    | Ok info' =>
        let user := InfoToNormalized info' in
        '(accessToken, refreshToken, err) ← NewPairTokens user;
        match err with
        | Some err =>
            log LevelError "failed to generate tokens" [AErr err];;
            ret (None, jwt.no_token, jwt.no_token, Some (Wrap op err))
        | None =>
            log LevelInfo "username changed" [];;
            ret (info, accessToken, refreshToken, None)
        end
    end
  else ret (info, jwt.no_token, jwt.no_token, None).

Definition update_email (username : string) (newInfo : NewUserInfo)
    (info : option UserInfo)
  : M P S (option UserInfo * TokenString * TokenString * option error) :=
  let op := "services.user.UpdateInfo" in
  let log := log_With op username in
  if bool_decide (nui_Email newInfo <> "") then
    log LevelInfo "changing email" [];;
    r ← on_users (ChangeEmail username (nui_Email newInfo));
    match r with
    | Err err =>
        if errors_Is err storage_ErrEmailExists then
          log LevelError "email already exists" [AErr err];;
          ret (None, jwt.no_token, jwt.no_token, Some (Wrap op ErrEmailExists))
        else
          log LevelError "failed to change email" [AErr err];;
          ret (None, jwt.no_token, jwt.no_token, Some (Wrap op err))
    | Ok info' =>
        log LevelInfo "email changed" [];;
        update_username username newInfo (Some info')
    end
  else update_username username newInfo info.

(** UserDataService.UpdateInfo: name, then email, then username, each
    only when the new value is not empty. *)
Definition UpdateInfo (username : string) (newInfo : NewUserInfo)
  : M P S (option UserInfo * TokenString * TokenString * option error) :=
  let op := "services.user.UpdateInfo" in
  let log := log_With op username in
  if bool_decide (nui_Name newInfo <> "") then
    log LevelInfo "changing name" [];;
    r ← on_users (ChangeName username (nui_Name newInfo));
    match r with
    | Err err =>
        log LevelError "failed with changing name" [AErr err];;
        ret (None, jwt.no_token, jwt.no_token, Some (Wrap op err))
    | Ok info' =>
        log LevelInfo "name changed" [];;
        update_email username newInfo (Some info')
    end
  else update_email username newInfo None.

End UpdateInfo.
End WithUUID.
End userdata.

(* ===================================================================== *)
(** ** Stand-ins for the third-party libraries, to run the code on        *)
(* ===================================================================== *)

Module standin.

(** uuid: the 128-bit value as a number, its text in hexadecimal. *)
#[global] Instance uuid : UUIDLib := {|
  UUID := N;
  uuid_New := fun r => r;
  uuid_String := fun u => HexadecimalString.NilEmpty.string_of_uint (N.to_hex_uint u);
  uuid_Parse := fun s =>
    match s with
    | EmptyString => None
    | _ => option_map N.of_hex_uint (HexadecimalString.NilEmpty.uint_of_string s)
    end
|}.

Definition ErrMismatchedHashAndPassword : error := Sentinel "bcrypt.ErrMismatchedHashAndPassword".
Definition ErrHashTooShort : error := Sentinel "bcrypt.ErrHashTooShort".
Definition ErrPasswordTooLong : error := Sentinel "bcrypt.ErrPasswordTooLong".

(** bcrypt: a salt byte in front of the password stands for the hash.
    Passwords over 72 bytes are refused, as by the library. *)
#[global] Instance bcrypt : Bcrypt := {|
  GenerateFromPassword := fun salt password cost =>
    if (72 <? Z.of_nat (String.length password))%Z then Err ErrPasswordTooLong
    else Ok (String (Ascii.ascii_of_N (salt mod 256)) password);
  CompareHashAndPassword := fun hashedPassword password =>
    match hashedPassword with
    | EmptyString => Some ErrHashTooShort
    | String _ p => if bool_decide (p = password) then None
                    else Some ErrMismatchedHashAndPassword
    end
|}.

Definition lowerStr : string := "abcdefghijklmnopqrstuvwxyz".
Definition upperStr : string := "ABCDEFGHIJKLMNOPQRSTUVWXYZ".
Definition numericStr : string := "0123456789".
Definition specialStr : string := "@#$%&?|!(){}<>=*+-_:;,.".
Definition spaceStr : string := " ".

Definition pick (alphabet : string) (i : nat) : Ascii.ascii :=
  match String.get (i mod String.length alphabet) alphabet with
  | Some c => c
  | None => Ascii.Ascii true false false false false true true false
  end.

(** [k] more characters, taking the enabled classes in turn. *)
Fixpoint fill (classes : list string) (seed i k : nat) : string :=
  match k with
  | O => EmptyString
  | Datatypes.S k' =>
      String (pick (nth (i mod length classes) classes lowerStr) (seed + i))
             (fill classes seed (Datatypes.S i) k')
  end.

#[global] Instance gofakeit : Gofakeit := {|
  gofakeit_Password := fun seed lower upper numeric special space num =>
    let classes :=
      ((if lower then [lowerStr] else []) ++ (if upper then [upperStr] else []) ++
       (if numeric then [numericStr] else []) ++ (if special then [specialStr] else []) ++
       (if space then [spaceStr] else []))%list in
    fill classes (N.to_nat seed) 0 (Z.to_nat (Z.max num 5));
  gofakeit_Username := fun seed => "user" ++ uuid_String seed
|}.

(** A user store of one profile, to run UpdateInfo on: a change hits the
    profile when the username is the profile's, and the email
    [taken@x.com] belongs to somebody else. *)
Definition change (set : userdata.UserInfo -> userdata.UserInfo) (op username : string)
    (p : userdata.UserInfo) : Result userdata.UserInfo * userdata.UserInfo :=
  if bool_decide (userdata.ui_Username p = username) then (Ok (set p), set p)
  else (Err (Wrap op postgres.pgx_ErrNoRows), p).

#[global] Instance profile : userdata.UserService userdata.UserInfo := {|
  userdata.ChangeUsername := fun oldUsername newUsername =>
    change (fun p => userdata.mkUserInfo (userdata.ui_UUID p) (userdata.ui_Email p)
                       newUsername (userdata.ui_Name p))
      "storage.postgres.user.ChangeUsername" oldUsername;
  userdata.ChangeEmail := fun username newEmail p =>
    if bool_decide (newEmail = "taken@x.com")
    then (Err (Wrap "storage.postgres.user.ChangeEmail" userdata.storage_ErrEmailExists), p)
    else change (fun p => userdata.mkUserInfo (userdata.ui_UUID p) newEmail
                            (userdata.ui_Username p) (userdata.ui_Name p))
           "storage.postgres.user.ChangeEmail" username p;
  userdata.ChangeName := fun username newName =>
    change (fun p => userdata.mkUserInfo (userdata.ui_UUID p) (userdata.ui_Email p)
                       (userdata.ui_Username p) newName)
      "storage.postgres.user.ChangeName" username
|}.

End standin.

(* ===================================================================== *)
(** ** Vocabulary of the properties                                       *)
(* ===================================================================== *)

Section Vocabulary.
Context `{UUIDLib}.

(** [w'] differs from [w] at most by time having passed: the random
    source, both provider states and the record of calls are the same. *)
Definition only_clock {U S : Type} (w w' : World U S) : Prop :=
  clock w <= clock w' /\ entropy w' = entropy w /\ users w' = users w /\
  store w' = store w /\ trace w' = trace w.

(** Two worlds, over whatever provider states, that show the same time. *)
Definition same_clock {U S U' S' : Type} (w : World U S) (w' : World U' S') : Prop :=
  clock w = clock w' /\ elapse w = elapse w'.

(** The claims [NewPairTokens] puts into an access token issued at [now]
    and into a refresh token issued at [now]. *)
Definition accessClaims (user : NormalizedUser) (now : Z) : jwtlib.MapClaims :=
  <["exp" := jwtlib.VNumber (now + 15 * 60)]>
    (<["email" := jwtlib.VString (nu_Email user)]>
       (<["username" := jwtlib.VString (nu_Username user)]>
          (<["uuid" := jwtlib.VString (uuid_String (nu_UUID user))]> ∅))).

Definition refreshClaims (now : Z) : jwtlib.MapClaims :=
  <["exp" := jwtlib.VNumber (now + 30 * 24 * 60 * 60)]> ∅.

(** What the parser makes of the payload of a token string, whatever its
    verdict: the decoded claims, none for text that does not decode. *)
Definition decoded_claims (tokenString : jwtlib.TokenString) : jwtlib.MapClaims :=
  match tokenString with
  | jwtlib.Opaque _ => ∅
  | jwtlib.Compact _ claims _ => claims
  end.

(** The verdict of the library on a token presented in world [w] (its
    error, [None] when the token is valid), and the world afterwards. *)
Definition verdict {U S : Type} (keyFunc : jwtlib.SigningMethod -> Result string)
    (tokenString : jwtlib.TokenString) (w : World U S) : option error :=
  snd (fst (jwtlib.ParseWithClaims tokenString keyFunc w)).

Definition after_parse {U S : Type} (keyFunc : jwtlib.SigningMethod -> Result string)
    (tokenString : jwtlib.TokenString) (w : World U S) : World U S :=
  snd (jwtlib.ParseWithClaims tokenString keyFunc w).

(** The claims carry the complete identity [user]: a uuid string that
    parses to its id, and string username and email fields. *)
Definition complete_identity (claims : jwtlib.MapClaims) (user : NormalizedUser) : Prop :=
  exists uuidStr,
    claims !! "uuid" = Some (jwtlib.VString uuidStr) /\
    uuid_Parse uuidStr = Some (nu_UUID user) /\
    claims !! "username" = Some (jwtlib.VString (nu_Username user)) /\
    claims !! "email" = Some (jwtlib.VString (nu_Email user)).

End Vocabulary.

Section ServiceVocabulary.
Context `{UUIDLib} `{Bcrypt} `{Gofakeit}.
Context {U S : Type} `{!UserProvider U} `{!AuthProvider S}.

(** No identity exists for the email: the user provider says so with the
    sentinel of package storage. *)
Definition unknown_email (email : string) (w : World U S) : Prop :=
  exists err, fst (user_GetUser email (users w)) = Err err /\
              errors_Is err storage.ErrUserNotFound = true.

(** The identity exists, its hash is stored, and the presented password
    fails verification against that hash. *)
Definition wrong_password (loginUser : LoginUser) (w : World U S) : Prop :=
  exists user passHash,
    fst (user_GetUser (lu_Email loginUser) (users w)) = Ok user /\
    fst (auth_Login (nu_UUID user) (store w)) = Ok passHash /\
    CompareHashAndPassword passHash (lu_Password loginUser) <> None.

(** A call hands [secret] to a collaborator: it is one of the strings the
    call passes. *)
Definition attr_carries (secret : string) (a : Attr) : bool :=
  match a with
  | AString _ value => bool_decide (value = secret)
  | AErr _ => false
  end.

Definition carries (secret : string) (c : Call) : bool :=
  match c with
  | LogRecord _ msg attrs => bool_decide (msg = secret) || existsb (attr_carries secret) attrs
  | UserGetUser email => bool_decide (email = secret)
  | UserCreateUser email => bool_decide (email = secret)
  | AuthRegister _ passHash => bool_decide (passHash = secret)
  | AuthLogin _ => false
  | AuthPassword _ => false
  | AuthChangePassword _ newPasswordHash => bool_decide (newPasswordHash = secret)
  end.

Definition secret_delivered (secret : string) (calls : list Call) : bool :=
  existsb (carries secret) calls.

End ServiceVocabulary.

(** Character classes of a generated secret. *)
Definition in_range (lo hi : N) (c : Ascii.ascii) : bool :=
  ((lo <=? Ascii.N_of_ascii c) && (Ascii.N_of_ascii c <=? hi))%N.
Definition is_lower : Ascii.ascii -> bool := in_range 97 122.
Definition is_upper : Ascii.ascii -> bool := in_range 65 90.
Definition is_digit : Ascii.ascii -> bool := in_range 48 57.
Definition is_symbol (c : Ascii.ascii) : bool :=
  in_range 33 126 c && negb (is_lower c || is_upper c || is_digit c).

Fixpoint string_exists (P : Ascii.ascii -> bool) (s : string) : bool :=
  match s with
  | EmptyString => false
  | String c s' => P c || string_exists P s'
  end.

Fixpoint string_forall (P : Ascii.ascii -> bool) (s : string) : bool :=
  match s with
  | EmptyString => true
  | String c s' => P c && string_forall P s'
  end.

(** At least 14 characters, spanning the four classes. *)
Definition password_strong (s : string) : Prop :=
  (14 <= String.length s)%nat /\
  string_exists is_upper s = true /\ string_exists is_lower s = true /\
  string_exists is_digit s = true /\ string_exists is_symbol s = true.

(** What the random-secret generator is relied on for, at the arguments
    [ResetPassword] calls it with. *)
Definition gofakeit_strong `{Gofakeit} : Prop :=
  forall seed, password_strong (gofakeit_Password seed true true true true false 14).

(** What bcrypt is relied on for: a hash it generated verifies the
    password it was generated from. *)
Definition bcrypt_sound `{Bcrypt} : Prop :=
  forall salt password passHash,
    GenerateFromPassword salt password bcrypt_DefaultCost = Ok passHash ->
    CompareHashAndPassword passHash password = None.

(* ===================================================================== *)
(** ** A scenario to run the code on                                      *)
(* ===================================================================== *)

Module scenario.
Import jwtlib.

(** Unix time 1000, the database up, nobody registered. *)
Definition w0 : World userservice.Directory postgres.Storage :=
  mkWorld 1000 [1; 2; 3; 4; 5; 6; 7; 8]%N [5; 6; 7; 8; 9; 10; 11; 12]%N
    (userservice.mkDirectory [] [3; 4; 13; 14; 15; 16]%N)
    (postgres.mkStorage true ∅) [].

(** The moment after registration, seen by a process with no providers
    at all. *)
Definition bare_later : World unit unit :=
  mkWorld 1003 [3; 4; 5; 6; 7; 8]%N [] tt tt [].

(** After [Register("a@x.com", "password1")]. *)
Definition registered : World userservice.Directory postgres.Storage :=
  snd (auth.RegisterNewUser (mkRegisterUser "a@x.com" "password1") w0).

(** The identity that registration created. *)
Definition alice : NormalizedUser := mkNormalizedUser 4%N "user3" "a@x.com".

(** Alice's access token issued at time 0 (expired at 1000), one issued at
    1000, her refresh token issued at 0 (good for 30 days), a token signed
    with the access secret that carries an expiry and nothing else, and
    text that is no token. *)
Definition expired_access : TokenString :=
  Compact SigningMethodHS256 (accessClaims alice 0) (MAC SigningMethodHS256 "somesecret").
Definition fresh_access : TokenString :=
  Compact SigningMethodHS256 (accessClaims alice 1000) (MAC SigningMethodHS256 "somesecret").
Definition good_refresh : TokenString :=
  Compact SigningMethodHS256 (refreshClaims 0) (MAC SigningMethodHS256 "secret").
Definition anonymous_access : TokenString :=
  Compact SigningMethodHS256 (refreshClaims 0) (MAC SigningMethodHS256 "somesecret").
Definition garbage : TokenString := Opaque "garbage".

(** After registration, with the database of the auth service down. *)
Definition database_down : World userservice.Directory postgres.Storage :=
  mkWorld 1003 [3; 4]%N [6; 7]%N (users registered) (postgres.mkStorage false ∅) [].

(** A later moment, for a process with no providers: Alice's access
    token of time 1000 has expired, her refresh token has not. *)
Definition bare_next_day : World unit unit :=
  mkWorld 87400 [1; 1; 1; 1]%N [] tt tt [].

(** The user service at time 1000 with Alice's profile. *)
Definition profiles : World userdata.UserInfo unit :=
  mkWorld 1000 [1; 2; 3; 4]%N [] (userdata.mkUserInfo 4%N "a@x.com" "user3" "nameless") tt [].

End scenario.

(* ===================================================================== *)
(** * Properties                                                          *)
(* ===================================================================== *)

Import jwtlib.

(** Unfolding of the monad and of the effects. *)
Ltac run_go :=
  unfold mbind, mret, M_bind, M_ret, bind, ret, time_Now, rand_Read, record,
    on_users, on_store in *;
  cbn [fst snd clock elapse entropy users store trace] in *.

Ltac go_step := cbn [fst snd clock elapse entropy users store trace] in *.

(** ** The clock *)

Section Clock.
Context `{UUIDLib} {U S : Type}.

Lemma time_Now_reads (w : World U S) : fst (time_Now w) = clock w.
Proof. reflexivity. Qed.

(** Only the clock moves when it is read, and it never moves back. *)
Lemma time_Now_frame (w : World U S) :
  let w' := snd (time_Now w) in
  clock w <= clock w' /\ entropy w' = entropy w /\ users w' = users w /\
  store w' = store w /\ trace w' = trace w.
Proof.
  unfold time_Now; cbn [snd].
  destruct (elapse w) as [|d ds]; cbn; repeat split; lia.
Qed.

End Clock.

(** ** The parser *)

Section Parser.
Context `{UUIDLib} {U S : Type}.

(** The library reports an error exactly when it leaves [Valid] unset. *)
Lemma ParseWithClaims_Valid tokenString keyFunc (w : World U S) :
  let '(token, err) := fst (ParseWithClaims tokenString keyFunc w) in
  Valid token = true <-> err = None.
Proof.
  unfold ParseWithClaims.
  destruct tokenString as [raw|alg claims sig]; run_go; cbn.
  - split; discriminate.
  - destruct (keyFunc alg); cbn; [|split; discriminate].
    destruct (method_Verify alg sig a); cbn; [|split; discriminate].
    destruct (Validate claims (clock w)); cbn; split; congruence.
Qed.

Lemma ParseWithClaims_frame tokenString keyFunc (w : World U S) :
  let w' := snd (ParseWithClaims tokenString keyFunc w) in
  clock w <= clock w' /\ entropy w' = entropy w /\ users w' = users w /\
  store w' = store w /\ trace w' = trace w.
Proof.
  unfold ParseWithClaims.
  destruct tokenString as [raw|alg claims sig]; run_go; cbn.
  - repeat split; lia.
  - destruct (keyFunc alg); cbn; [|repeat split; lia].
    destruct (method_Verify alg sig a); cbn; [|repeat split; lia].
    pose proof (time_Now_frame w) as F. unfold time_Now in F. cbn [snd] in F.
    destruct (Validate claims (clock w)); cbn; exact F.
Qed.

(** What the parser answers depends on the clock alone. *)
Lemma ParseWithClaims_clock {U' S' : Type} tokenString keyFunc
    (w : World U S) (w' : World U' S') :
  clock w = clock w' -> elapse w = elapse w' ->
  fst (ParseWithClaims tokenString keyFunc w) = fst (ParseWithClaims tokenString keyFunc w')
  /\ clock (snd (ParseWithClaims tokenString keyFunc w))
     = clock (snd (ParseWithClaims tokenString keyFunc w'))
  /\ elapse (snd (ParseWithClaims tokenString keyFunc w))
     = elapse (snd (ParseWithClaims tokenString keyFunc w')).
Proof.
  intros Hc He. unfold ParseWithClaims.
  destruct tokenString as [raw|alg claims sig]; run_go; cbn; [auto|].
  destruct (keyFunc alg); cbn; [|auto].
  destruct (method_Verify alg sig a); cbn; [|auto].
  rewrite <- Hc, <- He.
  destruct (Validate claims (clock w)); cbn;
    destruct (elapse w) eqn:E; cbn; rewrite ?E; auto with lia.
Qed.

End Parser.

(** ** Issuing a pair *)

Section Issue.
Context `{UUIDLib} {U S : Type}.

Lemma only_clock_refl (w : World U S) : only_clock w w.
Proof. unfold only_clock; repeat split; lia. Qed.

Lemma only_clock_trans (w1 w2 w3 : World U S) :
  only_clock w1 w2 -> only_clock w2 w3 -> only_clock w1 w3.
Proof.
  unfold only_clock. intros (?&?&?&?&?) (?&?&?&?&?).
  repeat split; try congruence; lia.
Qed.

Lemma time_Now_only_clock (w : World U S) : only_clock w (snd (time_Now w)).
Proof. apply time_Now_frame. Qed.

Lemma ParseWithClaims_only_clock tokenString keyFunc (w : World U S) :
  only_clock w (snd (ParseWithClaims tokenString keyFunc w)).
Proof. apply ParseWithClaims_frame. Qed.

Lemma NewPairTokens_eq (user : NormalizedUser) (w : World U S) :
  jwt.NewPairTokens user w =
    ((Compact SigningMethodHS256 (accessClaims user (clock w))
        (MAC SigningMethodHS256 "somesecret"),
      Compact SigningMethodHS256 (refreshClaims (clock (snd (time_Now w))))
        (MAC SigningMethodHS256 "secret"),
      None),
     snd (time_Now (snd (time_Now w)))).
Proof. reflexivity. Qed.

Lemma NewPairTokens_only_clock (user : NormalizedUser) (w : World U S) :
  only_clock w (snd (jwt.NewPairTokens user w)).
Proof.
  rewrite NewPairTokens_eq; cbn [snd].
  eapply only_clock_trans; apply time_Now_only_clock.
Qed.

(** C4. For every identity, NewPairTokens yields an access token whose
    claims are exactly uuid, username, email of the identity and
    exp = now + 15 minutes, and a refresh token whose only claim is
    exp = now + 30 days ([now] being the clock reading taken for each
    token); both are signed with HMAC-SHA-256, the access token under
    "somesecret" and the refresh token under the different secret
    "secret", and neither signature verifies under the other secret. *)
Theorem NewPairTokens_issues (user : NormalizedUser) (w : World U S) :
  let t1 := clock w in
  let t2 := clock (snd (time_Now w)) in
  fst (jwt.NewPairTokens user w) =
    (Compact SigningMethodHS256
       (<["exp" := VNumber (t1 + 15 * 60)]>
          (<["email" := VString (nu_Email user)]>
             (<["username" := VString (nu_Username user)]>
                (<["uuid" := VString (uuid_String (nu_UUID user))]> ∅))))
       (MAC SigningMethodHS256 "somesecret"),
     Compact SigningMethodHS256
       (<["exp" := VNumber (t2 + 30 * 24 * 60 * 60)]> ∅)
       (MAC SigningMethodHS256 "secret"),
     None)
  /\ "somesecret" <> "secret"
  /\ method_Verify SigningMethodHS256 (MAC SigningMethodHS256 "secret") "somesecret" = false
  /\ method_Verify SigningMethodHS256 (MAC SigningMethodHS256 "somesecret") "secret" = false.
Proof.
  cbv zeta. rewrite NewPairTokens_eq. cbn [fst].
  split; [reflexivity|]. split; [discriminate|]. split; reflexivity.
Qed.

End Issue.

(** ** Verification *)

Section Verify.
Context `{UUIDLib} {U S : Type}.

(** The library's verdicts on the two presented tokens. *)
Lemma VerifyRefreshToken_eq (user : NormalizedUser) refreshToken (w : World U S) :
  jwt.VerifyRefreshToken user refreshToken w =
    let p := ParseWithClaims refreshToken jwt.refreshKeyFunc w in
    match snd (fst p) with
    | Some err => ((jwt.no_token, jwt.no_token, None, Some err), snd p)
    | None =>
        let q := jwt.NewPairTokens user (snd p) in
        ((fst (fst (fst q)), snd (fst (fst q)), Some user, None), snd q)
    end.
Proof.
  unfold jwt.VerifyRefreshToken. run_go.
  pose proof (ParseWithClaims_Valid refreshToken jwt.refreshKeyFunc w) as V.
  destruct (ParseWithClaims refreshToken jwt.refreshKeyFunc w) as [[tok err] w1].
  cbn [fst snd] in *. destruct err as [e|]; [reflexivity|].
  destruct V as [_ V]. rewrite (V eq_refl). cbn [negb].
  rewrite NewPairTokens_eq. reflexivity.
Qed.

Lemma VerifyAccessToken_eq accessToken refreshToken (w : World U S) :
  jwt.VerifyAccessToken accessToken refreshToken w =
    let p := ParseWithClaims accessToken jwt.accessKeyFunc w in
    let claims := Claims (fst (fst p)) in
    match snd (fst p) with
    | Some _ =>
        match jwt.extractUserFromClaims claims with
        | Err _ => ((jwt.no_token, jwt.no_token, None, Some jwt.ErrUserUnauthorized), snd p)
        | Ok user => jwt.VerifyRefreshToken user refreshToken (snd p)
        end
    | None =>
        match jwt.extractUserFromClaims claims with
        | Err userErr => ((jwt.no_token, jwt.no_token, None, Some userErr), snd p)
        | Ok user => ((jwt.no_token, jwt.no_token, Some user, None), snd p)
        end
    end.
Proof.
  unfold jwt.VerifyAccessToken. run_go.
  pose proof (ParseWithClaims_Valid accessToken jwt.accessKeyFunc w) as V.
  destruct (ParseWithClaims accessToken jwt.accessKeyFunc w) as [[tok err] w1].
  cbn [fst snd] in *. destruct err as [e|].
  - cbn. destruct (jwt.extractUserFromClaims (Claims tok)); reflexivity.
  - destruct V as [_ V]. rewrite (V eq_refl). cbn.
    destruct (jwt.extractUserFromClaims (Claims tok)); reflexivity.
Qed.

Lemma VerifyRefreshToken_only_clock (user : NormalizedUser) refreshToken (w : World U S) :
  only_clock w (snd (jwt.VerifyRefreshToken user refreshToken w)).
Proof.
  rewrite VerifyRefreshToken_eq. cbv zeta.
  pose proof (ParseWithClaims_only_clock refreshToken jwt.refreshKeyFunc w) as P.
  destruct (snd (fst (ParseWithClaims refreshToken jwt.refreshKeyFunc w))); cbn [snd].
  - exact P.
  - eapply only_clock_trans; [exact P|apply NewPairTokens_only_clock].
Qed.

Lemma VerifyAccessToken_only_clock accessToken refreshToken (w : World U S) :
  only_clock w (snd (jwt.VerifyAccessToken accessToken refreshToken w)).
Proof.
  rewrite VerifyAccessToken_eq. cbv zeta.
  pose proof (ParseWithClaims_only_clock accessToken jwt.accessKeyFunc w) as P.
  destruct (snd (fst (ParseWithClaims accessToken jwt.accessKeyFunc w)));
    destruct (jwt.extractUserFromClaims _); cbn [snd]; try exact P.
  eapply only_clock_trans; [exact P|apply VerifyRefreshToken_only_clock].
Qed.

End Verify.

Section VerifyTwoWorlds.
Context `{UUIDLib} {U S U' S' : Type}.

Lemma time_Now_same_clock (w : World U S) (w' : World U' S') :
  same_clock w w' -> same_clock (snd (time_Now w)) (snd (time_Now w')).
Proof.
  unfold same_clock, time_Now. intros [Hc He]. cbn [snd]. rewrite <- He, <- Hc.
  destruct (elapse w) eqn:E; cbn; rewrite ?E; auto.
Qed.

Lemma NewPairTokens_same_clock (user : NormalizedUser) (w : World U S) (w' : World U' S') :
  same_clock w w' ->
  fst (jwt.NewPairTokens user w) = fst (jwt.NewPairTokens user w')
  /\ same_clock (snd (jwt.NewPairTokens user w)) (snd (jwt.NewPairTokens user w')).
Proof.
  intros Hs. rewrite !NewPairTokens_eq. cbn [fst snd].
  pose proof (time_Now_same_clock w w' Hs) as H1.
  pose proof (time_Now_same_clock _ _ H1) as H2.
  destruct Hs as [Hc _]. destruct H1 as [Hc1 _].
  split; [|exact H2]. rewrite Hc, Hc1. reflexivity.
Qed.

Lemma ParseWithClaims_same_clock tokenString keyFunc (w : World U S) (w' : World U' S') :
  same_clock w w' ->
  fst (ParseWithClaims tokenString keyFunc w) = fst (ParseWithClaims tokenString keyFunc w')
  /\ same_clock (snd (ParseWithClaims tokenString keyFunc w))
                (snd (ParseWithClaims tokenString keyFunc w')).
Proof.
  intros [Hc He].
  destruct (ParseWithClaims_clock tokenString keyFunc w w' Hc He) as (?&?&?).
  unfold same_clock; auto.
Qed.

Lemma VerifyRefreshToken_same_clock (user : NormalizedUser) refreshToken
    (w : World U S) (w' : World U' S') :
  same_clock w w' ->
  fst (jwt.VerifyRefreshToken user refreshToken w)
  = fst (jwt.VerifyRefreshToken user refreshToken w')
  /\ same_clock (snd (jwt.VerifyRefreshToken user refreshToken w))
                (snd (jwt.VerifyRefreshToken user refreshToken w')).
Proof.
  intros Hs. rewrite !VerifyRefreshToken_eq. cbv zeta.
  destruct (ParseWithClaims_same_clock refreshToken jwt.refreshKeyFunc w w' Hs) as [E Hs1].
  rewrite <- E.
  destruct (snd (fst (ParseWithClaims refreshToken jwt.refreshKeyFunc w))); cbn [fst snd].
  - auto.
  - destruct (NewPairTokens_same_clock user _ _ Hs1) as [E2 Hs2].
    rewrite <- E2. auto.
Qed.

Lemma VerifyAccessToken_same_clock accessToken refreshToken
    (w : World U S) (w' : World U' S') :
  same_clock w w' ->
  fst (jwt.VerifyAccessToken accessToken refreshToken w)
  = fst (jwt.VerifyAccessToken accessToken refreshToken w').
Proof.
  intros Hs. rewrite !VerifyAccessToken_eq. cbv zeta.
  destruct (ParseWithClaims_same_clock accessToken jwt.accessKeyFunc w w' Hs) as [E Hs1].
  rewrite <- E.
  destruct (snd (fst (ParseWithClaims accessToken jwt.accessKeyFunc w)));
    destruct (jwt.extractUserFromClaims _); cbn [fst]; try reflexivity.
  apply VerifyRefreshToken_same_clock, Hs1.
Qed.

(** C9. Token verification, whichever branch it takes, leaves the state
    behind both providers (the credential store and the user directory),
    the random source and the record of collaborator calls exactly as they
    were, and its result is a function of the two presented tokens and of
    the time alone: run in any two worlds that show the same time, over
    whatever stores, it returns the same result.  (The signing secrets are
    constants of the code.) *)
Theorem VerifyAccessToken_pure accessToken refreshToken
    (w : World U S) (w' : World U' S') :
  (let w1 := snd (jwt.VerifyAccessToken accessToken refreshToken w) in
   users w1 = users w /\ store w1 = store w /\ entropy w1 = entropy w /\
   trace w1 = trace w)
  /\ (clock w = clock w' -> elapse w = elapse w' ->
      fst (jwt.VerifyAccessToken accessToken refreshToken w)
      = fst (jwt.VerifyAccessToken accessToken refreshToken w')).
Proof.
  split.
  - destruct (VerifyAccessToken_only_clock accessToken refreshToken w) as (_&?&?&?&?).
    cbv zeta. auto.
  - intros Hc He. apply VerifyAccessToken_same_clock. split; assumption.
Qed.

End VerifyTwoWorlds.

(** ** The three outcomes of verification *)

Section Outcomes.
Context `{UUIDLib} {U S : Type}.

Lemma Claims_decoded tokenString keyFunc (w : World U S) :
  Claims (fst (fst (ParseWithClaims tokenString keyFunc w))) = decoded_claims tokenString.
Proof.
  unfold ParseWithClaims. destruct tokenString as [raw|alg claims sig]; run_go; cbn.
  - reflexivity.
  - destruct (keyFunc alg); cbn; [|reflexivity].
    destruct (method_Verify alg sig a); cbn; [|reflexivity].
    destruct (Validate claims (clock w)); reflexivity.
Qed.

(** [extractUserFromClaims] succeeds exactly on a complete identity. *)
Lemma extractUserFromClaims_Ok claims (user : NormalizedUser) :
  jwt.extractUserFromClaims claims = Ok user <-> complete_identity claims user.
Proof.
  unfold jwt.extractUserFromClaims, complete_identity. split.
  - intros E.
    destruct (claims !! "uuid") as [[| | |uuidStr| |]|]; try discriminate.
    destruct (uuid_Parse uuidStr) as [u|] eqn:P; try discriminate.
    destruct (claims !! "username") as [[| | |username| |]|]; try discriminate.
    destruct (claims !! "email") as [[| | |email| |]|]; try discriminate.
    injection E as <-. exists uuidStr. cbn. auto.
  - intros (uuidStr & -> & -> & -> & ->). destruct user; reflexivity.
Qed.

Lemma extractUserFromClaims_Err claims :
  (forall user, ~ complete_identity claims user) ->
  exists e, jwt.extractUserFromClaims claims = Err e.
Proof.
  intros N. destruct (jwt.extractUserFromClaims claims) as [user|e] eqn:E; [|eauto].
  apply extractUserFromClaims_Ok in E. destruct (N user E).
Qed.


(** A valid access token that names an identity: that identity, nothing
    else. *)
Lemma VerifyAccessToken_valid_result accessToken refreshToken (w : World U S)
    (user : NormalizedUser) :
  verdict jwt.accessKeyFunc accessToken w = None ->
  complete_identity (decoded_claims accessToken) user ->
  fst (jwt.VerifyAccessToken accessToken refreshToken w)
    = (jwt.no_token, jwt.no_token, Some user, None).
Proof.
  unfold verdict. intros Hv Hc.
  rewrite VerifyAccessToken_eq. cbv zeta. rewrite Claims_decoded, Hv.
  apply extractUserFromClaims_Ok in Hc. rewrite Hc. reflexivity.
Qed.


(** An access token issued at [t] is valid as long as its 15 minutes have
    not passed. *)
Lemma issued_access_valid (user : NormalizedUser) (t : Z) (w : World U S) :
  clock w < t + 15 * 60 ->
  verdict jwt.accessKeyFunc
    (Compact SigningMethodHS256 (accessClaims user t) (MAC SigningMethodHS256 "somesecret"))
    w = None.
Proof.
  intros Hlt. unfold verdict, ParseWithClaims. cbn [jwt.accessKeyFunc is_SigningMethodHMAC].
  unfold method_Verify. cbn [is_SigningMethodHMAC andb].
  rewrite bool_decide_eq_true_2 by reflexivity. run_go.
  assert (Validate (accessClaims user t) (clock w) = None) as ->; [|reflexivity].
  unfold Validate, verifyExpiresAt, verifyNotBefore, accessClaims.
  rewrite lookup_insert_eq.
  destruct (Z.ltb_spec (clock w) (t + 15 * 60)); [|lia].
  rewrite !lookup_insert_ne by discriminate. rewrite lookup_empty. reflexivity.
Qed.


End Outcomes.

(** ** The credential store *)

Section Store.
Context `{UUIDLib}.

Lemma Password_Ok uid (s : postgres.Storage) passHash :
  fst (postgres.Password uid s) = Ok passHash ->
  postgres.pool_up s = true /\ postgres.credentials s !! uid = Some passHash.
Proof.
  unfold postgres.Password. destruct (postgres.pool_up s); cbn; [|discriminate].
  destruct (postgres.credentials s !! uid); cbn; [|discriminate].
  intros [= ->]. auto.
Qed.

(** Reading a hash writes nothing. *)
Lemma Password_reads uid (s : postgres.Storage) : snd (postgres.Password uid s) = s.
Proof.
  unfold postgres.Password. destruct (postgres.pool_up s); cbn; [|reflexivity].
  destruct (postgres.credentials s !! uid); reflexivity.
Qed.

Lemma Login_reads uid (s : postgres.Storage) : snd (postgres.Login uid s) = s.
Proof.
  unfold postgres.Login. destruct (postgres.pool_up s); cbn; [|reflexivity].
  destruct (postgres.credentials s !! uid); reflexivity.
Qed.

(** Whatever makes [Register] fail, its error is neither
    [storage.ErrUserExists] nor the ErrUserExists of package auth; a failed
    [Register] writes nothing. *)
Lemma Register_error uid passHash (s : postgres.Storage) err :
  fst (postgres.Register uid passHash s) = Some err ->
  errors_Is err storage.ErrUserExists = false /\
  errors_Is err auth.ErrUserExists = false /\
  snd (postgres.Register uid passHash s) = s.
Proof.
  unfold postgres.Register. destruct (postgres.pool_up s); cbn.
  - destruct (postgres.credentials s !! uid); cbn; [|discriminate].
    intros [= <-]. repeat split.
  - intros [= <-]. repeat split.
Qed.

Lemma ChangePassword_Ok uid newPasswordHash (s : postgres.Storage) old :
  postgres.pool_up s = true -> postgres.credentials s !! uid = Some old ->
  postgres.ChangePassword uid newPasswordHash s =
    (None, postgres.mkStorage true (<[uid := newPasswordHash]> (postgres.credentials s))).
Proof.
  intros Hp Hc. unfold postgres.ChangePassword. rewrite Hp, Hc. reflexivity.
Qed.

End Store.

(** ** The service *)

Ltac run_auth :=
  unfold auth.log_With, auth.a_user_GetUser, auth.a_user_CreateUser,
    auth.a_auth_Register, auth.a_auth_Login, auth.a_auth_Password,
    auth.a_auth_ChangePassword, auth.bcrypt_GenerateFromPassword in *;
  run_go.

Section Service.
Context `{UUIDLib} `{Bcrypt} `{Gofakeit}.
Context {U S : Type} `{!UserProvider U} `{!AuthProvider S}.

(** C5. Login answers with the same error, InvalidCredentials wrapped in
    the same operation name, both when no identity exists for the email
    and when the identity exists but the password fails verification
    against the stored hash; in both cases it returns no identity and no
    tokens, so the two results are equal. *)
Theorem Login_InvalidCredentials (loginUser : LoginUser) (w : World U S) :
  unknown_email (lu_Email loginUser) w \/ wrong_password loginUser w ->
  fst (auth.Login loginUser w) =
    (None, jwt.no_token, jwt.no_token,
     Some (Wrap "services.auth.Login" auth.ErrInvalidCredentials))
  /\ errors_Is (Wrap "services.auth.Login" auth.ErrInvalidCredentials)
       auth.ErrInvalidCredentials = true.
Proof.
  intros Hcase. split; [|reflexivity].
  unfold auth.Login. run_auth.
  destruct Hcase as [(err & Hg & His) | (user & passHash & Hg & Hl & Hcmp)].
  - destruct (user_GetUser (lu_Email loginUser) (users w)) as [r u']; go_step.
    subst r. go_step. rewrite His. reflexivity.
  - destruct (user_GetUser (lu_Email loginUser) (users w)) as [r u']; go_step.
    subst r. go_step.
    destruct (auth_Login (nu_UUID user) (store w)) as [r s']; go_step. subst r. go_step.
    destruct (CompareHashAndPassword passHash (lu_Password loginUser)); [reflexivity|].
    congruence.
Qed.

(** X14. Whatever error the user provider gives for a failed creation, even
    one that says the user exists, RegisterNewUser answers with
    ErrFailedToGetUser and does not touch the credential store. *)
Lemma RegisterNewUser_CreateUser_fails (registerUser : RegisterUser) (w : World U S) err :
  fst (user_CreateUser (ru_Email registerUser) (users w)) = Err err ->
  fst (auth.RegisterNewUser registerUser w) =
    (None, jwt.no_token, jwt.no_token,
     Some (Wrap "services.auth.RegisterNewUser" auth.ErrFailedToGetUser))
  /\ store (snd (auth.RegisterNewUser registerUser w)) = store w.
Proof.
  intros Hc. unfold auth.RegisterNewUser. run_auth.
  destruct (user_CreateUser (ru_Email registerUser) (users w)) as [r u']; go_step.
  subst r. split; reflexivity.
Qed.

End Service.

Section ServiceOnPostgres.
Context `{UUIDLib} `{Bcrypt} `{Gofakeit}.
Context {U : Type} `{!UserProvider U}.

(** C6. When the old password does not verify against the stored hash,
    ChangePassword answers InvalidCredentials and writes nothing: the
    credential store afterwards is the store before, the hash stored for
    the identity is the one that was there, and the only call made on the
    store is the read of that hash. *)
Theorem ChangePassword_wrong_old (newPassword : NewPassword)
    (w : World U postgres.Storage) (user : NormalizedUser) (oldPasswordHash : string) :
  fst (user_GetUser (np_Email newPassword) (users w)) = Ok user ->
  fst (postgres.Password (nu_UUID user) (store w)) = Ok oldPasswordHash ->
  CompareHashAndPassword oldPasswordHash (np_PreviousPassword newPassword) <> None ->
  let r := auth.ChangePassword newPassword w in
  let attrs := [AString "op" "services.auth.ChangePassword";
                AString "email" (np_Email newPassword)] in
  fst r = Some (Wrap "services.auth.ChangePassword" auth.ErrInvalidCredentials)
  /\ store (snd r) = store w
  /\ postgres.credentials (store (snd r)) !! nu_UUID user = Some oldPasswordHash
  /\ trace (snd r) =
       (trace w ++
        [LogRecord LevelInfo "changing user password" attrs;
         UserGetUser (np_Email newPassword);
         AuthPassword (nu_UUID user);
         LogRecord LevelError "failed to compare passwords"
           (attrs ++ [AErr auth.ErrInvalidCredentials])])%list.
Proof.
  intros Hg Hp Hcmp. cbv zeta.
  destruct (Password_Ok _ _ _ Hp) as [_ Hstored].
  pose proof (Password_reads (nu_UUID user) (store w)) as Hread.
  unfold auth.ChangePassword. run_auth.
  destruct (user_GetUser (np_Email newPassword) (users w)) as [r u']; go_step.
  subst r. go_step.
  change (auth_Password (nu_UUID user) (store w))
    with (postgres.Password (nu_UUID user) (store w)).
  destruct (postgres.Password (nu_UUID user) (store w)) as [r s']; go_step.
  subst r s'. go_step.
  destruct (CompareHashAndPassword oldPasswordHash (np_PreviousPassword newPassword));
    [|congruence].
  go_step. repeat split; try assumption.
  rewrite <- !app_assoc. reflexivity.
Qed.


(** No call of RegisterNewUser answers ErrUserExists, whatever the user
    provider does: a failed creation becomes ErrFailedToGetUser, and the
    credential store never reports storage.ErrUserExists.  (bcrypt is only
    assumed not to return the sentinel of package auth.) *)
Lemma RegisterNewUser_never_UserExists (registerUser : RegisterUser)
    (w : World U postgres.Storage) (err : error) :
  (forall salt password e,
      GenerateFromPassword salt password bcrypt_DefaultCost = Err e ->
      errors_Is e auth.ErrUserExists = false) ->
  snd (fst (auth.RegisterNewUser registerUser w)) = Some err ->
  errors_Is err auth.ErrUserExists = false.
Proof.
  intros Hb. unfold auth.RegisterNewUser. run_auth.
  destruct (user_CreateUser (ru_Email registerUser) (users w)) as [[user|e] u']; go_step.
  2:{ intros [= <-]. reflexivity. }
  change (auth_Register (nu_UUID user)) with (postgres.Register (nu_UUID user)).
  destruct (entropy w) as [|r rs]; go_step;
    (destruct (GenerateFromPassword _ (ru_Password registerUser) bcrypt_DefaultCost)
       as [passHash|e] eqn:EG; go_step;
     [|intros [= <-]; cbn; eapply Hb; exact EG]);
    (destruct (postgres.Register (nu_UUID user) passHash (store w)) as [[e|] s'] eqn:ER;
     go_step;
     [|rewrite NewPairTokens_eq; go_step; discriminate]);
    (assert (fst (postgres.Register (nu_UUID user) passHash (store w)) = Some e) as E1
       by (rewrite ER; reflexivity));
    destruct (Register_error _ _ _ _ E1) as (Hs & Ha & _); rewrite Hs; go_step;
    intros [= <-]; cbn; exact Ha.
Qed.

End ServiceOnPostgres.

(** ** The stand-ins keep the promises of the libraries *)

Section StandIns.

Lemma standin_uuid_roundtrip : @uuid_roundtrip standin.uuid.
Proof.
  intros u. cbn.
  pose proof (HexadecimalString.NilEmpty.usu (N.to_hex_uint u)) as R.
  destruct (HexadecimalString.NilEmpty.string_of_uint (N.to_hex_uint u)) eqn:E.
  - exfalso. destruct u as [|p]; [discriminate E|].
    pose proof (HexadecimalN.Unsigned.of_to (N.pos p)) as Q.
    change (HexadecimalString.NilEmpty.uint_of_string "") with (Some Hexadecimal.Nil) in R.
    assert (Hexadecimal.Nil = N.to_hex_uint (N.pos p)) as T by (injection R; auto).
    rewrite <- T in Q. discriminate Q.
  - rewrite R. cbn. rewrite HexadecimalN.Unsigned.of_to. reflexivity.
Qed.

Lemma get_None (s : string) : forall n, String.get n s = None -> (String.length s <= n)%nat.
Proof.
  induction s as [|c s IH]; intros n Hn; cbn in *; [lia|].
  destruct n as [|n]; [discriminate|]. specialize (IH n Hn). lia.
Qed.

Lemma get_forall (P : Ascii.ascii -> bool) (s : string) :
  string_forall P s = true -> forall n c, String.get n s = Some c -> P c = true.
Proof.
  induction s as [|a s IH]; intros Hall n c Hn; cbn in *; [discriminate|].
  apply andb_true_iff in Hall as [Ha Hs].
  destruct n as [|n]; [congruence|]. eauto.
Qed.

Lemma pick_forall (P : Ascii.ascii -> bool) (alphabet : string) (i : nat) :
  String.length alphabet <> 0%nat -> string_forall P alphabet = true ->
  P (standin.pick alphabet i) = true.
Proof.
  intros Hlen Hall. unfold standin.pick.
  destruct (String.get (i mod String.length alphabet) alphabet) as [c|] eqn:E.
  - eapply get_forall; eauto.
  - apply get_None in E.
    pose proof (Nat.mod_upper_bound i (String.length alphabet) Hlen). lia.
Qed.

Lemma fill_length classes seed : forall k i,
  String.length (standin.fill classes seed i k) = k.
Proof. induction k as [|k IH]; intros i; cbn; [reflexivity|]. rewrite IH. reflexivity. Qed.

Lemma standin_gofakeit_strong : @gofakeit_strong standin.gofakeit.
Proof.
  intros seed. unfold password_strong. cbn [gofakeit_Password standin.gofakeit].
  set (classes := ([standin.lowerStr] ++ [standin.upperStr] ++ [standin.numericStr]
                   ++ [standin.specialStr] ++ [])%list).
  set (n := N.to_nat seed).
  split; [rewrite fill_length; cbn; lia|].
  change (standin.fill classes n 0 (Z.to_nat (Z.max 14 5)))
    with (String (standin.pick standin.lowerStr (n + 0))
            (String (standin.pick standin.upperStr (n + 1))
               (String (standin.pick standin.numericStr (n + 2))
                  (String (standin.pick standin.specialStr (n + 3))
                     (standin.fill classes n 4 10))))).
  cbn [string_exists].
  rewrite (pick_forall is_lower standin.lowerStr) by (cbn; first [discriminate|reflexivity]).
  rewrite (pick_forall is_upper standin.upperStr) by (cbn; first [discriminate|reflexivity]).
  rewrite (pick_forall is_digit standin.numericStr) by (cbn; first [discriminate|reflexivity]).
  rewrite (pick_forall is_symbol standin.specialStr) by (cbn; first [discriminate|reflexivity]).
  rewrite !orb_true_r. auto.
Qed.

End StandIns.

(** ** Issue, then verify *)

Section IssueThenVerify.
Context `{UUIDLib} {U S : Type}.

Lemma accessClaims_identity (user : NormalizedUser) (t : Z) :
  uuid_roundtrip -> complete_identity (accessClaims user t) user.
Proof.
  intros R. exists (uuid_String (nu_UUID user)). unfold accessClaims.
  split; [reflexivity|]. split; [apply R|]. split; reflexivity.
Qed.

(** X1. The pair just issued for an identity verifies to that identity with
    no new pair, as long as less than 15 minutes have passed. *)
Lemma issue_then_verify (user : NormalizedUser) (w w' : World U S) :
  uuid_roundtrip ->
  clock w' < clock w + 15 * 60 ->
  let '(accessToken, refreshToken, _) := fst (jwt.NewPairTokens user w) in
  fst (jwt.VerifyAccessToken accessToken refreshToken w')
  = (jwt.no_token, jwt.no_token, Some user, None).
Proof.
  intros R Hlt. rewrite NewPairTokens_eq. cbn [fst].
  apply VerifyAccessToken_valid_result.
  - apply issued_access_valid, Hlt.
  - apply accessClaims_identity, R.
Qed.


End IssueThenVerify.

(** ** The code run on the scenario *)

Section Runs.
Import scenario.

Lemma alice_identity : complete_identity (decoded_claims expired_access) alice.
Proof. exists "4". repeat split; vm_compute; reflexivity. Defined.






Lemma VerifyAccessToken_pure_witness :
  fst (jwt.VerifyAccessToken expired_access good_refresh registered)
  = fst (jwt.VerifyAccessToken expired_access good_refresh bare_later)
  /\ store (snd (jwt.VerifyAccessToken expired_access good_refresh registered))
     = store registered.
Proof.
  destruct (VerifyAccessToken_pure expired_access good_refresh registered bare_later)
    as [(_ & Hs & _) Hp].
  split; [apply Hp; vm_compute; reflexivity|exact Hs].
Defined.

(** C2 at its failing input.  Alice's expired access token with text that
    is no token as refresh token: the result is the parser's own error for
    the refresh token, not the unauthorized error, and the session handler
    answers such an error with status 500. *)
Theorem VerifyAccessToken_garbage_refresh :
  verdict jwt.accessKeyFunc expired_access w0 = Some ErrTokenExpired
  /\ verdict jwt.refreshKeyFunc garbage (after_parse jwt.accessKeyFunc expired_access w0)
     = Some ErrTokenMalformed
  /\ fst (jwt.VerifyAccessToken expired_access garbage w0)
     = (jwt.no_token, jwt.no_token, None, Some ErrTokenMalformed)
  /\ errors_Is ErrTokenMalformed jwt.ErrUserUnauthorized = false
  /\ session.CheckSession (Err ErrTokenMalformed) = 500.
Proof. repeat split; vm_compute; reflexivity. Qed.

End Runs.

Section ServiceRuns.
Import scenario.

Lemma Login_InvalidCredentials_witness :
  fst (auth.Login (mkLoginUser "nouser@x.com" "anything") registered)
  = fst (auth.Login (mkLoginUser "a@x.com" "wrongpw") registered)
  /\ snd (fst (auth.Login (mkLoginUser "a@x.com" "wrongpw") registered))
     = Some (Wrap "services.auth.Login" auth.ErrInvalidCredentials).
Proof.
  assert (unknown_email "nouser@x.com" registered) as Hu.
  { eexists. split; vm_compute; reflexivity. }
  assert (wrong_password (mkLoginUser "a@x.com" "wrongpw") registered) as Hw.
  { eexists _, _. split; [vm_compute; reflexivity|].
    split; [vm_compute; reflexivity|]. vm_compute. discriminate. }
  destruct (Login_InvalidCredentials (mkLoginUser "nouser@x.com" "anything") registered
              (or_introl Hu)) as [E1 _].
  destruct (Login_InvalidCredentials (mkLoginUser "a@x.com" "wrongpw") registered
              (or_intror Hw)) as [E2 _].
  rewrite E1, E2. split; reflexivity.
Defined.

Lemma ChangePassword_wrong_old_witness :
  let r := auth.ChangePassword (mkNewPassword "a@x.com" "wrongpw" "newpass1") registered in
  fst r = Some (Wrap "services.auth.ChangePassword" auth.ErrInvalidCredentials)
  /\ store (snd r) = store registered.
Proof.
  destruct (ChangePassword_wrong_old (mkNewPassword "a@x.com" "wrongpw" "newpass1")
              registered alice (String (Ascii.ascii_of_N 5) "password1"))
    as (E & St & _).
  - vm_compute; reflexivity.
  - vm_compute; reflexivity.
  - vm_compute; discriminate.
  - split; assumption.
Defined.



(** C8 at its failing input.  The first registration of a@x.com creates
    Alice and her credential; the second one answers ErrFailedToGetUser,
    which is not ErrUserExists, and leaves the users and the credentials
    as the first one made them. *)
Theorem RegisterNewUser_twice :
  let first := auth.RegisterNewUser (mkRegisterUser "a@x.com" "password1") w0 in
  let second := auth.RegisterNewUser (mkRegisterUser "a@x.com" "password2") registered in
  fst (fst (fst (fst first))) = Some alice
  /\ snd (fst first) = None
  /\ fst second = (None, jwt.no_token, jwt.no_token,
                   Some (Wrap "services.auth.RegisterNewUser" auth.ErrFailedToGetUser))
  /\ errors_Is (Wrap "services.auth.RegisterNewUser" auth.ErrFailedToGetUser)
       auth.ErrUserExists = false
  /\ userservice.rows (users (snd second)) = userservice.rows (users registered)
  /\ store (snd second) = store registered.
Proof. repeat split; vm_compute; reflexivity. Qed.

End ServiceRuns.

(* ===================================================================== *)
(** * Further properties of the code                                      *)
(* ===================================================================== *)

(** ** Lifetimes and keys of the issued pair *)

Section IssuedPair.
Context `{UUIDLib} {U S : Type}.

(** A token signed with HS256 under the key the key function gives: the
    parser reads the clock once and the verdict is that of the claims. *)
Lemma ParseWithClaims_signed keyFunc key claims (w : World U S) :
  keyFunc SigningMethodHS256 = Ok key ->
  ParseWithClaims (Compact SigningMethodHS256 claims (MAC SigningMethodHS256 key)) keyFunc w =
    (match Validate claims (clock w) with
     | Some e => (mkToken claims false, Some e)
     | None => (mkToken claims true, None)
     end, snd (time_Now w)).
Proof.
  intros K. unfold ParseWithClaims. rewrite K.
  unfold method_Verify. cbn [is_SigningMethodHMAC andb].
  rewrite bool_decide_eq_true_2 by reflexivity. run_go.
  destruct (Validate claims (clock w)); reflexivity.
Qed.

(** A token whose signature does not verify under the key: the parser
    refuses it without reading the clock. *)
Lemma ParseWithClaims_unsigned keyFunc key alg claims sig (w : World U S) :
  keyFunc alg = Ok key -> method_Verify alg sig key = false ->
  ParseWithClaims (Compact alg claims sig) keyFunc w =
    ((mkToken claims false, Some ErrTokenSignatureInvalid), w).
Proof. intros K V. unfold ParseWithClaims. rewrite K, V. reflexivity. Qed.

Lemma Validate_accessClaims (user : NormalizedUser) (t now : Z) :
  Validate (accessClaims user t) now =
    if (now <? t + 15 * 60)%Z then None else Some ErrTokenExpired.
Proof.
  unfold Validate, verifyExpiresAt, verifyNotBefore, accessClaims.
  rewrite lookup_insert_eq. destruct (now <? t + 15 * 60)%Z; [|reflexivity].
  rewrite !lookup_insert_ne by discriminate. rewrite lookup_empty. reflexivity.
Qed.

Lemma Validate_refreshClaims (t now : Z) :
  Validate (refreshClaims t) now =
    if (now <? t + 30 * 24 * 60 * 60)%Z then None else Some ErrTokenExpired.
Proof.
  unfold Validate, verifyExpiresAt, verifyNotBefore, refreshClaims.
  rewrite lookup_insert_eq. destruct (now <? t + 30 * 24 * 60 * 60)%Z; [|reflexivity].
  rewrite !lookup_insert_ne by discriminate. rewrite lookup_empty. reflexivity.
Qed.

Lemma extractUserFromClaims_refreshClaims (t : Z) :
  jwt.extractUserFromClaims (refreshClaims t)
  = Err (Fresh "missing or invalid 'uuid' in token claims").
Proof.
  unfold jwt.extractUserFromClaims, refreshClaims.
  rewrite lookup_insert_ne by discriminate. rewrite lookup_empty. reflexivity.
Qed.

(** X3. The access token of an issued pair is accepted by the library
    exactly while fewer than 15 minutes have passed since it was issued,
    the refresh token exactly while fewer than 30 days have; afterwards
    the verdict on either is the expiry error. *)
Theorem NewPairTokens_lifetimes (user : NormalizedUser) (w w' : World U S) :
  let '(accessToken, refreshToken, _) := fst (jwt.NewPairTokens user w) in
  verdict jwt.accessKeyFunc accessToken w' =
    (if (clock w' <? clock w + 15 * 60)%Z then None else Some ErrTokenExpired)
  /\ verdict jwt.refreshKeyFunc refreshToken w' =
    (if (clock w' <? clock (snd (time_Now w)) + 30 * 24 * 60 * 60)%Z
     then None else Some ErrTokenExpired).
Proof.
  rewrite NewPairTokens_eq. cbn [fst]. unfold verdict.
  rewrite !ParseWithClaims_signed by reflexivity. cbn [fst snd].
  rewrite Validate_accessClaims, Validate_refreshClaims.
  split.
  - destruct (clock w' <? clock w + 15 * 60)%Z; reflexivity.
  - destruct (clock w' <? clock (snd (time_Now w)) + 30 * 24 * 60 * 60)%Z; reflexivity.
Qed.

(** X4. The two tokens of an issued pair cannot stand in for each other:
    the refresh token fails the signature check of the access key, the
    access token that of the refresh key; and the refresh token presented
    as access token is answered unauthorized, whatever comes with it. *)
Theorem NewPairTokens_not_interchangeable (user : NormalizedUser) (w w' : World U S)
    (presented : TokenString) :
  let '(accessToken, refreshToken, _) := fst (jwt.NewPairTokens user w) in
  verdict jwt.accessKeyFunc refreshToken w' = Some ErrTokenSignatureInvalid
  /\ verdict jwt.refreshKeyFunc accessToken w' = Some ErrTokenSignatureInvalid
  /\ jwt.VerifyAccessToken refreshToken presented w' =
       ((jwt.no_token, jwt.no_token, None, Some jwt.ErrUserUnauthorized), w').
Proof.
  rewrite NewPairTokens_eq. cbn [fst]. unfold verdict.
  split; [|split].
  - erewrite ParseWithClaims_unsigned; reflexivity.
  - erewrite ParseWithClaims_unsigned; reflexivity.
  - rewrite VerifyAccessToken_eq. cbv zeta.
    erewrite ParseWithClaims_unsigned; [|reflexivity|reflexivity].
    cbn [fst snd Claims]. rewrite extractUserFromClaims_refreshClaims. reflexivity.
Qed.

End IssuedPair.

(** ** What verification does and never does *)

Section VerifyMore.
Context `{UUIDLib} {U S : Type}.

(** X5. VerifyRefreshToken never answers with the unauthorized error:
    every error it returns is the library's own, and none of those is or
    wraps ErrUserUnauthorized.  The branch that would return it is never
    taken. *)
Theorem VerifyRefreshToken_never_Unauthorized (user : NormalizedUser) refreshToken
    (w : World U S) (err : error) :
  snd (fst (jwt.VerifyRefreshToken user refreshToken w)) = Some err ->
  errors_Is err jwt.ErrUserUnauthorized = false.
Proof.
  rewrite VerifyRefreshToken_eq. cbv zeta.
  unfold ParseWithClaims, jwt.refreshKeyFunc.
  destruct refreshToken as [raw|alg claims sig]; run_go.
  - intros [= <-]. reflexivity.
  - destruct (method_Verify alg sig "secret"); cbn [fst snd].
    2:{ intros [= <-]. reflexivity. }
    destruct (Validate claims (clock w)) as [e|] eqn:EV; cbn [fst snd].
    2:{ discriminate. }
    intros [= <-]. revert EV. unfold Validate, verifyExpiresAt, verifyNotBefore.
    destruct (claims !! "exp") as [[| |n| | |]|];
      try (intros [= <-]; reflexivity);
      try (destruct (clock w <? n)%Z; [|intros [= <-]; reflexivity]);
      (destruct (claims !! "nbf") as [[| |m| | |]|];
       try discriminate; try (intros [= <-]; reflexivity);
       destruct (clock w <? m)%Z; try discriminate; intros [= <-]; reflexivity).
Qed.

(** X6. The shape of every result of VerifyAccessToken: an identity is
    returned exactly when no error is; without an identity both returned
    tokens are empty; and the two returned tokens are empty together. *)
Theorem VerifyAccessToken_result_shape accessToken refreshToken (w : World U S) :
  let '(newAccessToken, newRefreshToken, user, err) :=
    fst (jwt.VerifyAccessToken accessToken refreshToken w) in
  (user = None <-> err <> None)
  /\ (user = None -> newAccessToken = jwt.no_token /\ newRefreshToken = jwt.no_token)
  /\ (newAccessToken = jwt.no_token <-> newRefreshToken = jwt.no_token).
Proof.
  rewrite VerifyAccessToken_eq. cbv zeta.
  destruct (snd (fst (ParseWithClaims accessToken jwt.accessKeyFunc w)));
    destruct (jwt.extractUserFromClaims _); cbn [fst snd];
    try (repeat split; congruence).
  rewrite VerifyRefreshToken_eq. cbv zeta.
  destruct (snd (fst (ParseWithClaims refreshToken jwt.refreshKeyFunc _))); cbn [fst snd].
  - repeat split; congruence.
  - rewrite NewPairTokens_eq. cbn [fst snd]. repeat split; try congruence; discriminate.
Qed.

(** X7. Issue, wait, rotate.  Present the pair issued for an identity
    once its access token has expired and while its refresh token has not:
    the answer is that identity with the pair minted for it at that
    moment. *)
Theorem issue_then_rotate (user : NormalizedUser) (w w' : World U S) :
  uuid_roundtrip ->
  clock w + 15 * 60 <= clock w' ->
  clock (snd (time_Now w')) < clock (snd (time_Now w)) + 30 * 24 * 60 * 60 ->
  let '(accessToken, refreshToken, _) := fst (jwt.NewPairTokens user w) in
  let w2 := snd (time_Now (snd (time_Now w'))) in
  fst (jwt.VerifyAccessToken accessToken refreshToken w') =
    (fst (fst (fst (jwt.NewPairTokens user w2))),
     snd (fst (fst (jwt.NewPairTokens user w2))), Some user, None).
Proof.
  intros R Hexp Hlive. rewrite NewPairTokens_eq. cbn [fst]. cbv zeta.
  rewrite VerifyAccessToken_eq. cbv zeta.
  rewrite ParseWithClaims_signed by reflexivity. cbn [fst snd].
  rewrite Validate_accessClaims.
  destruct (Z.ltb_spec (clock w') (clock w + 15 * 60)); [lia|]. cbn [fst snd Claims].
  pose proof (accessClaims_identity user (clock w) R) as Hc.
  apply extractUserFromClaims_Ok in Hc. rewrite Hc.
  rewrite VerifyRefreshToken_eq. cbv zeta.
  rewrite ParseWithClaims_signed by reflexivity. cbn [fst snd].
  rewrite Validate_refreshClaims.
  destruct (Z.ltb_spec (clock (snd (time_Now w')))
              (clock (snd (time_Now w)) + 30 * 24 * 60 * 60)); [|lia].
  cbn [fst snd]. reflexivity.
Qed.

End VerifyMore.

(** ** The credential store, write then read *)

Section StoreMore.
Context `{UUIDLib}.

(** X8. A hash registered for an identity that had none is the hash both
    reads return afterwards, and the reads for every other identity answer
    as before. *)
Theorem Register_then_Login uid passHash (s : postgres.Storage) :
  postgres.pool_up s = true ->
  postgres.credentials s !! uid = None ->
  let s' := snd (postgres.Register uid passHash s) in
  fst (postgres.Register uid passHash s) = None
  /\ fst (postgres.Login uid s') = Ok passHash
  /\ fst (postgres.Password uid s') = Ok passHash
  /\ forall uid', uid' <> uid ->
       fst (postgres.Login uid' s') = fst (postgres.Login uid' s)
       /\ fst (postgres.Password uid' s') = fst (postgres.Password uid' s).
Proof.
  intros Hp Hc. cbv zeta.
  unfold postgres.Register, postgres.Login, postgres.Password. rewrite Hp, Hc.
  cbn [negb fst snd postgres.pool_up postgres.credentials].
  rewrite lookup_insert_eq.
  repeat split; rewrite lookup_insert_ne by congruence;
    destruct (postgres.credentials s !! uid'); reflexivity.
Qed.

(** X9. ChangePassword replaces the hash of an identity that has one:
    both reads return the new hash afterwards and the set of identities
    with a credential is the same; for an identity without a credential
    it fails with the driver's no-rows error and writes nothing. *)
Theorem ChangePassword_then_reads uid newPasswordHash (s : postgres.Storage) :
  postgres.pool_up s = true ->
  let r := postgres.ChangePassword uid newPasswordHash s in
  match postgres.credentials s !! uid with
  | Some old =>
      fst r = None
      /\ fst (postgres.Login uid (snd r)) = Ok newPasswordHash
      /\ fst (postgres.Password uid (snd r)) = Ok newPasswordHash
      /\ dom (postgres.credentials (snd r)) = dom (postgres.credentials s)
  | None =>
      fst r = Some (Wrap "storage.postgres.user.ChangePassword" postgres.pgx_ErrNoRows)
      /\ snd r = s
  end.
Proof.
  intros Hp. cbv zeta.
  unfold postgres.ChangePassword, postgres.Login, postgres.Password. rewrite Hp.
  cbn [negb]. destruct (postgres.credentials s !! uid) as [old|] eqn:Hc.
  - cbn [fst snd postgres.pool_up postgres.credentials negb].
    rewrite lookup_insert_eq. repeat split.
    apply set_eq. intros k. rewrite dom_insert, elem_of_union, elem_of_singleton.
    split; [intros [->|]; [apply elem_of_dom; eauto|assumption]|auto].
  - split; reflexivity.
Qed.

(** X10. No operation of the store touches the credential of another
    identity or the connection, and the two reads and every failed write
    leave the whole store as it was. *)
Theorem postgres_frame uid uid' passHash (s : postgres.Storage) :
  uid' <> uid ->
  (forall s', s' = snd (postgres.Register uid passHash s)
           \/ s' = snd (postgres.ChangePassword uid passHash s)
           \/ s' = snd (postgres.Login uid s)
           \/ s' = snd (postgres.Password uid s) ->
     postgres.credentials s' !! uid' = postgres.credentials s !! uid'
     /\ postgres.pool_up s' = postgres.pool_up s)
  /\ snd (postgres.Login uid s) = s
  /\ snd (postgres.Password uid s) = s
  /\ (fst (postgres.Register uid passHash s) <> None ->
      snd (postgres.Register uid passHash s) = s)
  /\ (fst (postgres.ChangePassword uid passHash s) <> None ->
      snd (postgres.ChangePassword uid passHash s) = s).
Proof.
  intros Hne.
  unfold postgres.Register, postgres.ChangePassword, postgres.Login, postgres.Password.
  destruct (postgres.pool_up s) eqn:Hp; cbn [negb];
    destruct (postgres.credentials s !! uid) eqn:Hc; cbn [fst snd];
    (split; [intros s' [-> | [-> | [-> | ->]]];
             cbn [postgres.credentials postgres.pool_up];
             rewrite ?lookup_insert_ne by congruence; auto|]);
    repeat split; congruence.
Qed.

End StoreMore.

(** ** The service, beyond its error answers *)

Section ServiceMore.
Context `{UUIDLib} `{Bcrypt} `{Gofakeit}.
Context {U S : Type} `{!UserProvider U} `{!AuthProvider S}.

(** X11. Login of an existing identity with the password its stored hash
    verifies: the identity, with the pair NewPairTokens issues for it at
    that moment, and no error. *)
Theorem Login_success (loginUser : LoginUser) (w : World U S)
    (user : NormalizedUser) (passHash : string) :
  fst (user_GetUser (lu_Email loginUser) (users w)) = Ok user ->
  fst (auth_Login (nu_UUID user) (store w)) = Ok passHash ->
  CompareHashAndPassword passHash (lu_Password loginUser) = None ->
  fst (auth.Login loginUser w) =
    (Some user,
     Compact SigningMethodHS256 (accessClaims user (clock w))
       (MAC SigningMethodHS256 "somesecret"),
     Compact SigningMethodHS256 (refreshClaims (clock (snd (time_Now w))))
       (MAC SigningMethodHS256 "secret"),
     None).
Proof.
  intros Hg Hl Hcmp. unfold auth.Login. run_auth.
  destruct (user_GetUser (lu_Email loginUser) (users w)) as [r u']; go_step.
  subst r. go_step.
  destruct (auth_Login (nu_UUID user) (store w)) as [r s']; go_step. subst r. go_step.
  rewrite Hcmp. go_step. rewrite NewPairTokens_eq. go_step.
  unfold time_Now. go_step. destruct (elapse w); reflexivity.
Qed.

(** X18. For an email no identity has, ChangePassword and ResetPassword
    both answer ErrUserNotFound (where Login answers InvalidCredentials),
    and neither touches the credential store nor draws randomness. *)
Theorem unknown_email_NotFound (email previousPassword newPassword : string)
    (w : World U S) :
  unknown_email email w ->
  let c := auth.ChangePassword (mkNewPassword email previousPassword newPassword) w in
  let r := auth.ResetPassword (mkResetPassword email) w in
  fst c = Some (Wrap "services.auth.ChangePassword" auth.ErrUserNotFound)
  /\ fst r = Some (Wrap "services.auth.ResetPassword" auth.ErrUserNotFound)
  /\ store (snd c) = store w /\ store (snd r) = store w
  /\ entropy (snd c) = entropy w /\ entropy (snd r) = entropy w.
Proof.
  intros (err & Hg & His). cbv zeta.
  unfold auth.ChangePassword, auth.ResetPassword. run_auth.
  cbn [np_Email rp_Email].
  destruct (user_GetUser email (users w)) as [r u']; go_step.
  subst r. rewrite His. repeat split.
Qed.

End ServiceMore.

Section ServiceOnPostgresMore.
Context `{UUIDLib} `{Bcrypt} `{Gofakeit}.
Context {U : Type} `{!UserProvider U}.

(** The only errors the store's Login has are the two it wraps. *)
Lemma postgres_Login_error uid (s : postgres.Storage) err :
  fst (postgres.Login uid s) = Err err ->
  err = Wrap "storage.postgres.user.Password" postgres.pgx_ErrNoRows
  \/ err = Wrap "storage.postgres.user.Password" postgres.pool_closed.
Proof.
  unfold postgres.Login. destruct (postgres.pool_up s); cbn.
  - destruct (postgres.credentials s !! uid); cbn; [discriminate|]. intros [= <-]. auto.
  - intros [= <-]. auto.
Qed.

(** X12. An identity without a credential row, or a database that is
    down: Login returns the store's error wrapped, which is not
    InvalidCredentials.  The store never reports storage.ErrUserNotFound,
    so the second not-found branch of Login is never taken. *)
Theorem Login_store_error (loginUser : LoginUser) (w : World U postgres.Storage)
    (user : NormalizedUser) (err : error) :
  fst (user_GetUser (lu_Email loginUser) (users w)) = Ok user ->
  fst (postgres.Login (nu_UUID user) (store w)) = Err err ->
  fst (auth.Login loginUser w) =
    (None, jwt.no_token, jwt.no_token, Some (Wrap "services.auth.Login" err))
  /\ errors_Is (Wrap "services.auth.Login" err) auth.ErrInvalidCredentials = false
  /\ errors_Is err storage.ErrUserNotFound = false.
Proof.
  intros Hg Hl. pose proof (postgres_Login_error _ _ _ Hl) as Herr.
  assert (errors_Is err storage.ErrUserNotFound = false) as Hnf
    by (destruct Herr as [->| ->]; reflexivity).
  split; [|split; [destruct Herr as [->| ->]; reflexivity|exact Hnf]].
  unfold auth.Login. run_auth.
  destruct (user_GetUser (lu_Email loginUser) (users w)) as [r u']; go_step.
  subst r. go_step.
  change (auth_Login (nu_UUID user) (store w))
    with (postgres.Login (nu_UUID user) (store w)).
  destruct (postgres.Login (nu_UUID user) (store w)) as [r s']; go_step. subst r. go_step.
  rewrite Hnf. reflexivity.
Qed.

(** X13. Login is read-only on the credential store and draws no
    randomness, whatever it answers. *)
Theorem Login_readonly (loginUser : LoginUser) (w : World U postgres.Storage) :
  store (snd (auth.Login loginUser w)) = store w
  /\ entropy (snd (auth.Login loginUser w)) = entropy w.
Proof.
  unfold auth.Login. run_auth.
  destruct (user_GetUser (lu_Email loginUser) (users w)) as [[user|e] u']; go_step.
  2:{ destruct (errors_Is e storage.ErrUserNotFound); split; reflexivity. }
  change (auth_Login (nu_UUID user) (store w))
    with (postgres.Login (nu_UUID user) (store w)).
  pose proof (Login_reads (nu_UUID user) (store w)) as Hread.
  destruct (postgres.Login (nu_UUID user) (store w)) as [[passHash|e] s']; go_step; subst s'.
  2:{ destruct (errors_Is e storage.ErrUserNotFound); split; reflexivity. }
  destruct (CompareHashAndPassword passHash (lu_Password loginUser)); go_step;
    [split; reflexivity|].
  rewrite NewPairTokens_eq. go_step.
  unfold time_Now. go_step.
  destruct (elapse w) as [|d [|d' ds]]; split; reflexivity.
Qed.

End ServiceOnPostgresMore.

Section RegisterAndChange.
Context `{UUIDLib} `{Bcrypt} `{Gofakeit}.
Context {U : Type} `{!UserProvider U}.

(** X15. RegisterNewUser does not undo what it has done.  When the
    identity was created and its password hashed but the credential store
    refuses the hash, the error of the store comes back wrapped, and the
    user provider is left as the creation made it: the identity stays,
    without a credential. *)
Theorem RegisterNewUser_no_rollback (registerUser : RegisterUser)
    (w : World U postgres.Storage) (user : NormalizedUser) (passHash : string)
    (err : error) :
  fst (user_CreateUser (ru_Email registerUser) (users w)) = Ok user ->
  GenerateFromPassword (hd 0%N (entropy w)) (ru_Password registerUser) bcrypt_DefaultCost
    = Ok passHash ->
  fst (postgres.Register (nu_UUID user) passHash (store w)) = Some err ->
  let r := auth.RegisterNewUser registerUser w in
  fst r = (None, jwt.no_token, jwt.no_token,
           Some (Wrap "services.auth.RegisterNewUser" err))
  /\ users (snd r) = snd (user_CreateUser (ru_Email registerUser) (users w))
  /\ store (snd r) = store w.
Proof.
  intros Hc Hgen Hreg. cbv zeta.
  destruct (Register_error _ _ _ _ Hreg) as (Hs & _ & Hsame).
  unfold auth.RegisterNewUser. run_auth.
  destruct (user_CreateUser (ru_Email registerUser) (users w)) as [r u']; go_step.
  subst r. go_step.
  change (auth_Register (nu_UUID user)) with (postgres.Register (nu_UUID user)).
  destruct (entropy w) as [|salt rest]; cbn [hd] in Hgen; go_step;
    rewrite Hgen; go_step;
    (destruct (postgres.Register (nu_UUID user) passHash (store w)) as [e s']; go_step;
     subst e s'; go_step; rewrite Hs; go_step; repeat split).
Qed.

(** X16. A registration that goes through: the created identity comes
    back with the pair issued for it, the store holds the bcrypt hash of
    the password for exactly that identity, and one draw of randomness
    (the salt) was consumed. *)
Theorem RegisterNewUser_success (registerUser : RegisterUser)
    (w : World U postgres.Storage) (user : NormalizedUser) (passHash : string) :
  fst (user_CreateUser (ru_Email registerUser) (users w)) = Ok user ->
  GenerateFromPassword (hd 0%N (entropy w)) (ru_Password registerUser) bcrypt_DefaultCost
    = Ok passHash ->
  postgres.pool_up (store w) = true ->
  postgres.credentials (store w) !! nu_UUID user = None ->
  let r := auth.RegisterNewUser registerUser w in
  fst r =
    (Some user,
     Compact SigningMethodHS256 (accessClaims user (clock w))
       (MAC SigningMethodHS256 "somesecret"),
     Compact SigningMethodHS256 (refreshClaims (clock (snd (time_Now w))))
       (MAC SigningMethodHS256 "secret"),
     None)
  /\ store (snd r) =
       postgres.mkStorage true (<[nu_UUID user := passHash]> (postgres.credentials (store w)))
  /\ entropy (snd r) = tl (entropy w).
Proof.
  intros Hc Hgen Hp Hcred. cbv zeta.
  assert (postgres.Register (nu_UUID user) passHash (store w) =
            (None, postgres.mkStorage true
                     (<[nu_UUID user := passHash]> (postgres.credentials (store w)))))
    as Hreg by (unfold postgres.Register; rewrite Hp, Hcred; reflexivity).
  unfold auth.RegisterNewUser. run_auth.
  destruct (user_CreateUser (ru_Email registerUser) (users w)) as [r u']; go_step.
  subst r. go_step.
  change (auth_Register (nu_UUID user)) with (postgres.Register (nu_UUID user)).
  destruct (entropy w) as [|salt rest]; cbn [hd tl] in *; go_step;
    rewrite Hgen; go_step; rewrite Hreg; go_step;
    rewrite NewPairTokens_eq; go_step; unfold time_Now; go_step;
    (destruct (elapse w) as [|d [|d' ds]]; repeat split).
Qed.

(** X17. Change, then log in.  With a bcrypt whose hashes verify the
    password they were made from: after ChangePassword has succeeded for an
    identity, Login with the new password succeeds for that identity. *)
Theorem ChangePassword_then_Login (newPassword : NewPassword)
    (w : World U postgres.Storage) (user : NormalizedUser) (old passHash : string) :
  bcrypt_sound ->
  fst (user_GetUser (np_Email newPassword) (users w)) = Ok user ->
  fst (user_GetUser (np_Email newPassword)
         (snd (user_GetUser (np_Email newPassword) (users w)))) = Ok user ->
  postgres.pool_up (store w) = true ->
  postgres.credentials (store w) !! nu_UUID user = Some old ->
  CompareHashAndPassword old (np_PreviousPassword newPassword) = None ->
  GenerateFromPassword (hd 0%N (entropy w)) (np_NewPassword newPassword) bcrypt_DefaultCost
    = Ok passHash ->
  let changed := auth.ChangePassword newPassword w in
  let login :=
    auth.Login (mkLoginUser (np_Email newPassword) (np_NewPassword newPassword))
      (snd changed) in
  fst changed = None
  /\ fst (fst (fst (fst login))) = Some user
  /\ snd (fst login) = None.
Proof.
  intros Hsound Hg Hg2 Hp Hcred Hcmp Hgen. cbv zeta.
  pose proof (Hsound _ _ _ Hgen) as Hnew.
  pose proof (ChangePassword_Ok (nu_UUID user) passHash (store w) old Hp Hcred) as Hch.
  assert (postgres.Password (nu_UUID user) (store w) = (Ok old, store w)) as Hpw
    by (unfold postgres.Password; rewrite Hp, Hcred; reflexivity).
  assert (postgres.Login (nu_UUID user)
            (postgres.mkStorage true
               (<[nu_UUID user := passHash]> (postgres.credentials (store w))))
          = (Ok passHash,
             postgres.mkStorage true
               (<[nu_UUID user := passHash]> (postgres.credentials (store w))))) as Hlg
    by (unfold postgres.Login; cbn; rewrite lookup_insert_eq; reflexivity).
  unfold auth.ChangePassword, auth.Login. run_auth. cbn [lu_Email lu_Password].
  destruct (user_GetUser (np_Email newPassword) (users w)) as [r u']; go_step.
  subst r. go_step.
  change (auth_Password (nu_UUID user)) with (postgres.Password (nu_UUID user)).
  change (auth_ChangePassword (nu_UUID user)) with (postgres.ChangePassword (nu_UUID user)).
  rewrite Hpw. go_step. rewrite Hcmp.
  destruct (entropy w) as [|salt rest]; cbn [hd] in *; go_step;
    rewrite Hgen; go_step; rewrite Hch; go_step;
    (split; [reflexivity|]);
    (destruct (user_GetUser (np_Email newPassword) u') as [r u'']; go_step; subst r;
     go_step);
    change (auth_Login (nu_UUID user)) with (postgres.Login (nu_UUID user));
    rewrite Hlg; go_step; rewrite Hnew; go_step;
    rewrite NewPairTokens_eq; split; reflexivity.
Qed.

End RegisterAndChange.

(** ** The HTTP handlers of the auth service *)

Section Handlers.
Context `{UUIDLib} `{Bcrypt} `{Gofakeit}.
Context {U S : Type} `{!UserProvider U} `{!AuthProvider S}.

Lemma Login_error_unknown_or_wrong (loginUser : LoginUser) (w : World U S) :
  unknown_email (lu_Email loginUser) w \/ wrong_password loginUser w ->
  snd (fst (auth.Login loginUser w))
  = Some (Wrap "services.auth.Login" auth.ErrInvalidCredentials).
Proof.
  intros Hcase. unfold auth.Login. run_auth.
  destruct Hcase as [(err & Hg & His) | (user & passHash & Hg & Hl & Hcmp)].
  - destruct (user_GetUser (lu_Email loginUser) (users w)) as [r u']; go_step.
    subst r. go_step. rewrite His. reflexivity.
  - destruct (user_GetUser (lu_Email loginUser) (users w)) as [r u']; go_step.
    subst r. go_step.
    destruct (auth_Login (nu_UUID user) (store w)) as [r s']; go_step. subst r. go_step.
    destruct (CompareHashAndPassword passHash (lu_Password loginUser)); [reflexivity|].
    congruence.
Qed.

(** X19. The Login handler gives the same answer for an email nobody has
    and for a wrong password: status 409 with the text [invalid email or
    password], and no cookie. *)
Theorem Handler_Login_conflict (req : LoginUser) (w : World U S) :
  unknown_email (lu_Email req) w \/ wrong_password req w ->
  fst (authhandler.Login req w) =
    authhandler.mkResponse 409 409 (Some "invalid email or password") None None.
Proof.
  intros Hcase. pose proof (Login_error_unknown_or_wrong req w Hcase) as E.
  unfold authhandler.Login. run_go.
  destruct (auth.Login req w) as [[[[user a] r] err] w']. cbn [fst snd] in *.
  subst err. reflexivity.
Qed.

(** X20. The ChangePassword handler answers an email nobody has with
    status 500 and the text [internal error]: the ErrUserNotFound of the
    service is not among the errors the handler tells apart. *)
Theorem Handler_ChangePassword_unknown_email (req : NewPassword) (w : World U S) :
  unknown_email (np_Email req) w ->
  fst (authhandler.ChangePassword req w) =
    authhandler.mkResponse 500 500 (Some "internal error") None None.
Proof.
  intros (err & Hg & His).
  unfold authhandler.ChangePassword, auth.ChangePassword. run_auth.
  destruct (user_GetUser (np_Email req) (users w)) as [r u']; go_step.
  subst r. rewrite His. reflexivity.
Qed.

(** X21. The ChangePassword handler answers a wrong old password with
    HTTP status 409 while the body it sends says status 400. *)
Theorem Handler_ChangePassword_wrong_old (req : NewPassword) (w : World U S)
    (user : NormalizedUser) (oldPasswordHash : string) :
  fst (user_GetUser (np_Email req) (users w)) = Ok user ->
  fst (auth_Password (nu_UUID user) (store w)) = Ok oldPasswordHash ->
  CompareHashAndPassword oldPasswordHash (np_PreviousPassword req) <> None ->
  fst (authhandler.ChangePassword req w) =
    authhandler.mkResponse 409 400 (Some "invalid email or password") None None.
Proof.
  intros Hg Hp Hcmp.
  unfold authhandler.ChangePassword, auth.ChangePassword. run_auth.
  destruct (user_GetUser (np_Email req) (users w)) as [r u']; go_step.
  subst r. go_step.
  destruct (auth_Password (nu_UUID user) (store w)) as [r s']; go_step. subst r. go_step.
  destruct (CompareHashAndPassword oldPasswordHash (np_PreviousPassword req));
    [reflexivity|congruence].
Qed.

(** X22. Cookies and statuses.  The Login and Register handlers set the
    cookies exactly when they answer 200, which is exactly when the body
    carries no error, and the cookies are then the pair the service
    returned; the ChangePassword handler never sets a cookie.  The
    statuses are 200, 409 and 500 and no other. *)
Theorem Handler_cookies (login : LoginUser) (register : RegisterUser)
    (change : NewPassword) (w : World U S) :
  let l := fst (authhandler.Login login w) in
  let r := fst (authhandler.Register register w) in
  let c := fst (authhandler.ChangePassword change w) in
  (authhandler.code l = 200 <-> authhandler.body_Error l = None)
  /\ (authhandler.code r = 200 <-> authhandler.body_Error r = None)
  /\ authhandler.cookies l =
       (if bool_decide (authhandler.code l = 200)
        then Some (snd (fst (fst (fst (auth.Login login w)))),
                   snd (fst (fst (auth.Login login w))))
        else None)
  /\ authhandler.cookies r =
       (if bool_decide (authhandler.code r = 200)
        then Some (snd (fst (fst (fst (auth.RegisterNewUser register w)))),
                   snd (fst (fst (auth.RegisterNewUser register w))))
        else None)
  /\ authhandler.cookies c = None
  /\ Forall (fun x => authhandler.code x = 200 \/ authhandler.code x = 409
                      \/ authhandler.code x = 500) [l; r; c].
Proof.
  cbv zeta. unfold authhandler.Login, authhandler.Register, authhandler.ChangePassword.
  run_go.
  destruct (auth.Login login w) as [[[[lu la] lr] [le|]] lw];
    destruct (auth.RegisterNewUser register w) as [[[[ru ra] rr] [re|]] rw];
    destruct (auth.ChangePassword change w) as [[ce|] cw];
    try destruct (errors_Is le auth.ErrInvalidCredentials);
    try destruct (errors_Is re auth.ErrUserExists);
    try destruct (errors_Is ce auth.ErrInvalidCredentials);
    unfold authhandler.ErrorResponse, authhandler.StatusConflict,
      authhandler.StatusBadRequest, session.StatusInternalServerError, session.StatusOK;
    cbn [fst snd authhandler.code authhandler.body_Error authhandler.cookies];
    repeat (split; [first [reflexivity
                          | split; intros; first [discriminate | reflexivity]]|]);
    repeat (first [apply List.Forall_cons | apply List.Forall_nil]); cbn; auto.
Qed.

End Handlers.

Section HandlersOnPostgres.
Context `{UUIDLib} `{Bcrypt} `{Gofakeit}.
Context {U : Type} `{!UserProvider U}.

(** X23. Over the credential store, the Register handler never answers
    409 [user already exists]: whatever goes wrong, a taken email
    included, the answer is 500.  (bcrypt is only assumed not to return
    the ErrUserExists of package auth.) *)
Theorem Handler_Register_never_conflict (req : RegisterUser)
    (w : World U postgres.Storage) :
  (forall salt password e,
      GenerateFromPassword salt password bcrypt_DefaultCost = Err e ->
      errors_Is e auth.ErrUserExists = false) ->
  let r := fst (authhandler.Register req w) in
  authhandler.code r <> 409
  /\ (snd (fst (auth.RegisterNewUser req w)) <> None ->
      r = authhandler.mkResponse 500 500 (Some "internal error") None None).
Proof.
  intros Hb. cbv zeta.
  pose proof (RegisterNewUser_never_UserExists req w) as Hnever.
  unfold authhandler.Register. run_go.
  destruct (auth.RegisterNewUser req w) as [[[[user a] r] [err|]] w']; cbn [fst snd] in *.
  - rewrite (Hnever err Hb eq_refl). split; [discriminate|reflexivity].
  - split; [discriminate|congruence].
Qed.

End HandlersOnPostgres.

(** ** The user service: creation and lookup *)

Section UserService.
Context `{UUIDLib} `{Gofakeit}.

Lemma find_absent {A} (f : A -> bool) (l : list A) :
  (forall x, In x l -> f x = false) -> find f l = None.
Proof.
  induction l as [|a l IH]; cbn; [reflexivity|]. intros Hn.
  rewrite (Hn a) by auto. apply IH. intros x Hx. apply Hn. auto.
Qed.

Lemma find_appended {A} (f : A -> bool) (l : list A) (a : A) :
  (forall x, In x l -> f x = false) -> f a = true -> find f (l ++ [a]) = Some a.
Proof.
  induction l as [|b l IH]; cbn; intros Hn Ha; [rewrite Ha; reflexivity|].
  rewrite (Hn b) by auto. apply IH; [|exact Ha]. intros x Hx. apply Hn. auto.
Qed.

Lemma draw_rows (d : userservice.Directory) :
  userservice.rows (snd (userservice.draw d)) = userservice.rows d.
Proof. unfold userservice.draw. destruct (userservice.rng d); reflexivity. Qed.


(** X25. Create, then look up.  The identity CreateUser returns for an
    email is the one GetUserByEmail finds for that email afterwards. *)
Theorem CreateUser_then_GetUserByEmail (email : string) (d : userservice.Directory)
    (user : NormalizedUser) :
  fst (userservice.CreateUser email d) = Ok user ->
  fst (userservice.GetUserByEmail email (snd (userservice.CreateUser email d))) = Ok user
  /\ nu_Email user = email.
Proof.
  unfold userservice.CreateUser, userservice.Storage_CreateUser.
  destruct (userservice.draw d) as [r1 d1] eqn:E1.
  destruct (userservice.draw d1) as [r2 d2] eqn:E2.
  destruct (existsb _ (userservice.rows d2)) eqn:Ex; cbn [fst snd]; [discriminate|].
  intros [= <-]. split; [|reflexivity].
  unfold userservice.GetUserByEmail, userservice.Storage_GetUserByEmail.
  cbn [userservice.rows]. rewrite find_appended; [reflexivity| |].
  - intros r Hr. apply bool_decide_eq_false_2. intros Heq.
    assert (existsb (userservice.conflicts (uuid_New r2) email (gofakeit_Username r1))
              (userservice.rows d2) = true) as Ht; [|congruence].
    apply existsb_exists. exists r. split; [exact Hr|].
    unfold userservice.conflicts. rewrite (bool_decide_eq_true_2 _ Heq).
    rewrite orb_true_r. reflexivity.
  - apply bool_decide_eq_true_2. reflexivity.
Qed.


End UserService.

(** ** The user service: UpdateInfo *)

Ltac run_update :=
  unfold userdata.UpdateInfo, userdata.update_email, userdata.update_username,
    userdata.log_With in *;
  run_go.

Section UpdateInfo.
Context `{UUIDLib} {P S : Type} `{!userdata.UserService P}.
Variable NewPairTokens : NormalizedUser -> M P S (TokenString * TokenString * option error).

(** X27. A request that changes the username alone succeeds with tokens
    for the renamed identity but with no profile: the profile that
    ChangeUsername returned stays in a variable of the inner block, and
    the one returned is the outer one, which nothing has set. *)
Theorem UpdateInfo_username_only (username : string) (newInfo : userdata.NewUserInfo)
    (w : World P S) (info' : userdata.UserInfo) (p' : P) :
  let w1 :=
    mkWorld (clock w) (elapse w) (entropy w) p' (store w)
      (trace w ++ [LogRecord LevelInfo "changing username"
                     [AString "op" "services.user.UpdateInfo";
                      AString "username" username]]) in
  let minted := fst (NewPairTokens (userdata.InfoToNormalized info') w1) in
  userdata.nui_Name newInfo = "" ->
  userdata.nui_Email newInfo = "" ->
  userdata.nui_Username newInfo <> "" ->
  userdata.ChangeUsername username (userdata.nui_Username newInfo) (users w)
    = (Ok info', p') ->
  snd minted = None ->
  fst (userdata.UpdateInfo NewPairTokens username newInfo w)
  = (None, fst (fst minted), snd (fst minted), None).
Proof.
  cbv zeta. intros Hn He Hu Hch Hmint. run_update.
  rewrite Hn, He. rewrite (bool_decide_eq_false_2 ("" <> "")) by (intros X; apply X; reflexivity).
  rewrite (bool_decide_eq_true_2 _ Hu). go_step. rewrite Hch. go_step.
  cbn [app].
  destruct (NewPairTokens (userdata.InfoToNormalized info') _) as [[[a r] err] w2].
  cbn [fst snd] in *. subst err. reflexivity.
Qed.

(** X29. UpdateInfo does not undo a step that went through.  When the
    name was changed and the change of email then fails, the error comes
    back (as ErrEmailExists when the storage says so) and the state of
    the user store is the one those two calls left: the new name stays,
    and the username is not touched. *)
Theorem UpdateInfo_partial (username : string) (newInfo : userdata.NewUserInfo)
    (w : World P S) (info1 : userdata.UserInfo) (p1 : P) (err : error) :
  userdata.nui_Name newInfo <> "" ->
  userdata.nui_Email newInfo <> "" ->
  userdata.ChangeName username (userdata.nui_Name newInfo) (users w) = (Ok info1, p1) ->
  fst (userdata.ChangeEmail username (userdata.nui_Email newInfo) p1) = Err err ->
  let r := userdata.UpdateInfo NewPairTokens username newInfo w in
  fst r =
    (None, jwt.no_token, jwt.no_token,
     Some (Wrap "services.user.UpdateInfo"
             (if errors_Is err userdata.storage_ErrEmailExists
              then userdata.ErrEmailExists else err)))
  /\ users (snd r) = snd (userdata.ChangeEmail username (userdata.nui_Email newInfo) p1).
Proof.
  intros Hn He Hname Hemail. cbv zeta. run_update.
  rewrite (bool_decide_eq_true_2 _ Hn), (bool_decide_eq_true_2 _ He). go_step.
  rewrite Hname. go_step.
  destruct (userdata.ChangeEmail username (userdata.nui_Email newInfo) p1) as [r p2].
  cbn [fst snd] in *. subst r.
  destruct (errors_Is err userdata.storage_ErrEmailExists); split; reflexivity.
Qed.

End UpdateInfo.

Section UpdateInfoTokens.
Context `{UUIDLib} {P S : Type} `{!userdata.UserService P}.

(** X28. Tokens are minted for a change of username and for nothing
    else: when the request carries no new username, the issuer is not
    called (the outcome is the same with any issuer) and both returned
    tokens are empty, whatever happened to name and email. *)
Theorem UpdateInfo_no_username_no_tokens
    (issuer issuer' : NormalizedUser -> M P S (TokenString * TokenString * option error))
    (username : string) (newInfo : userdata.NewUserInfo) (w : World P S) :
  userdata.nui_Username newInfo = "" ->
  userdata.UpdateInfo issuer username newInfo w
  = userdata.UpdateInfo issuer' username newInfo w
  /\ snd (fst (fst (fst (userdata.UpdateInfo issuer username newInfo w)))) = jwt.no_token
  /\ snd (fst (fst (userdata.UpdateInfo issuer username newInfo w))) = jwt.no_token.
Proof.
  intros Hu. run_update. rewrite Hu.
  rewrite (bool_decide_eq_false_2 ("" <> "")) by (intros X; apply X; reflexivity).
  destruct (bool_decide (userdata.nui_Name newInfo <> "")); go_step.
  - destruct (userdata.ChangeName username (userdata.nui_Name newInfo) (users w))
      as [[info1|e] p1]; go_step; [|repeat split].
    destruct (bool_decide (userdata.nui_Email newInfo <> "")); go_step; [|repeat split].
    destruct (userdata.ChangeEmail username (userdata.nui_Email newInfo) p1)
      as [[info2|e] p2]; go_step; [repeat split|].
    destruct (errors_Is e userdata.storage_ErrEmailExists); repeat split.
  - destruct (bool_decide (userdata.nui_Email newInfo <> "")); go_step; [|repeat split].
    destruct (userdata.ChangeEmail username (userdata.nui_Email newInfo) (users w))
      as [[info2|e] p2]; go_step; [repeat split|].
    destruct (errors_Is e userdata.storage_ErrEmailExists); repeat split.
Qed.

End UpdateInfoTokens.

(** ** The further properties on the scenario *)

Section StandInsMore.

Lemma standin_bcrypt_sound : @bcrypt_sound standin.bcrypt.
Proof.
  intros salt password passHash. cbn.
  destruct (72 <? Z.of_nat (String.length password))%Z; [discriminate|].
  intros [= <-]. rewrite bool_decide_eq_true_2 by reflexivity. reflexivity.
Qed.

Lemma standin_bcrypt_errors salt password e :
  @GenerateFromPassword standin.bcrypt salt password bcrypt_DefaultCost = Err e ->
  errors_Is e auth.ErrUserExists = false.
Proof.
  cbn. destruct (72 <? Z.of_nat (String.length password))%Z; [|discriminate].
  intros [= <-]. reflexivity.
Qed.

End StandInsMore.

Section MoreRuns.
Import scenario.

Lemma issue_then_verify_witness :
  fst (jwt.VerifyAccessToken
         (fst (fst (fst (jwt.NewPairTokens alice w0))))
         (snd (fst (fst (jwt.NewPairTokens alice w0)))) registered)
  = (jwt.no_token, jwt.no_token, Some alice, None).
Proof.
  exact (issue_then_verify alice w0 registered standin_uuid_roundtrip
           ltac:(vm_compute; reflexivity)).
Defined.


Lemma VerifyRefreshToken_never_Unauthorized_witness :
  snd (fst (jwt.VerifyRefreshToken alice garbage w0)) = Some ErrTokenMalformed
  /\ errors_Is ErrTokenMalformed jwt.ErrUserUnauthorized = false.
Proof.
  split; [vm_compute; reflexivity|].
  apply (VerifyRefreshToken_never_Unauthorized alice garbage w0).
  vm_compute; reflexivity.
Defined.

Lemma issue_then_rotate_witness :
  snd (fst (fst (jwt.VerifyAccessToken
                   (fst (fst (fst (jwt.NewPairTokens alice bare_later))))
                   (snd (fst (fst (jwt.NewPairTokens alice bare_later))))
                   bare_next_day)))
  = Some alice.
Proof.
  pose proof (issue_then_rotate alice bare_later bare_next_day standin_uuid_roundtrip
                ltac:(vm_compute; discriminate) ltac:(vm_compute; reflexivity)) as T.
  rewrite NewPairTokens_eq in T. cbn [fst snd] in *. cbv zeta in T.
  rewrite NewPairTokens_eq. cbn [fst snd]. rewrite T. reflexivity.
Defined.

Lemma Register_then_Login_witness :
  fst (postgres.Login (4%N : @UUID standin.uuid)
         (snd (postgres.Register (4%N : @UUID standin.uuid) "hash" (postgres.mkStorage true ∅))))
  = Ok "hash".
Proof.
  destruct (Register_then_Login (4%N : @UUID standin.uuid) "hash" (postgres.mkStorage true ∅))
    as (_ & E & _).
  - reflexivity.
  - reflexivity.
  - exact E.
Defined.

Lemma ChangePassword_then_reads_witness :
  fst (postgres.Password (4%N : @UUID standin.uuid)
         (snd (postgres.ChangePassword (4%N : @UUID standin.uuid) "new" (store registered))))
  = Ok "new".
Proof.
  pose proof (ChangePassword_then_reads (4%N : @UUID standin.uuid) "new" (store registered)
                ltac:(vm_compute; reflexivity)) as T.
  cbv zeta in T.
  replace (postgres.credentials (store registered) !! (4%N : @UUID standin.uuid))
    with (Some (String (Ascii.ascii_of_N 5) "password1")) in T
    by (vm_compute; reflexivity).
  destruct T as (_ & _ & E & _). exact E.
Defined.

Lemma postgres_frame_witness :
  postgres.credentials (snd (postgres.ChangePassword (4%N : @UUID standin.uuid) "new" (store registered)))
    !! (9%N : @UUID standin.uuid)
  = postgres.credentials (store registered) !! (9%N : @UUID standin.uuid).
Proof.
  destruct (postgres_frame (4%N : @UUID standin.uuid) (9%N : @UUID standin.uuid) "new" (store registered)
              ltac:(discriminate)) as (F & _).
  apply (F _ (or_intror (or_introl eq_refl))).
Defined.

End MoreRuns.

Section MoreServiceRuns.
Import scenario.

Lemma Login_success_witness :
  fst (fst (fst (fst (auth.Login (mkLoginUser "a@x.com" "password1") registered))))
  = Some alice
  /\ snd (fst (auth.Login (mkLoginUser "a@x.com" "password1") registered)) = None.
Proof.
  rewrite (Login_success (mkLoginUser "a@x.com" "password1") registered alice
             (String (Ascii.ascii_of_N 5) "password1")).
  - split; reflexivity.
  - vm_compute; reflexivity.
  - vm_compute; reflexivity.
  - vm_compute; reflexivity.
Defined.

Lemma Login_store_error_witness :
  snd (fst (auth.Login (mkLoginUser "a@x.com" "password1") database_down))
  = Some (Wrap "services.auth.Login"
            (Wrap "storage.postgres.user.Password" postgres.pool_closed)).
Proof.
  destruct (Login_store_error (mkLoginUser "a@x.com" "password1") database_down alice
              (Wrap "storage.postgres.user.Password" postgres.pool_closed))
    as (E & _).
  - vm_compute; reflexivity.
  - vm_compute; reflexivity.
  - rewrite E. reflexivity.
Defined.

Lemma RegisterNewUser_CreateUser_fails_witness :
  snd (fst (auth.RegisterNewUser (mkRegisterUser "a@x.com" "password2") registered))
  = Some (Wrap "services.auth.RegisterNewUser" auth.ErrFailedToGetUser).
Proof.
  edestruct (RegisterNewUser_CreateUser_fails (mkRegisterUser "a@x.com" "password2")
               registered) as (E & _).
  - vm_compute; reflexivity.
  - rewrite E. reflexivity.
Defined.

Lemma RegisterNewUser_no_rollback_witness :
  let r := auth.RegisterNewUser (mkRegisterUser "b@x.com" "password2") database_down in
  snd (fst r) <> None
  /\ length (userservice.rows (users (snd r))) = 2%nat
  /\ postgres.credentials (store (snd r)) = ∅.
Proof.
  edestruct (RegisterNewUser_no_rollback (mkRegisterUser "b@x.com" "password2")
               database_down) as (E & Hu & Hs).
  - vm_compute; reflexivity.
  - vm_compute; reflexivity.
  - vm_compute; reflexivity.
  - cbv zeta. rewrite E, Hu, Hs. split; [discriminate|]. split; vm_compute; reflexivity.
Defined.

Lemma RegisterNewUser_success_witness :
  let r := auth.RegisterNewUser (mkRegisterUser "a@x.com" "password1") w0 in
  fst (fst (fst (fst r))) = Some alice
  /\ postgres.credentials (store (snd r)) !! (4%N : @UUID standin.uuid)
     = Some (String (Ascii.ascii_of_N 5) "password1").
Proof.
  destruct (RegisterNewUser_success (mkRegisterUser "a@x.com" "password1") w0 alice
              (String (Ascii.ascii_of_N 5) "password1")) as (E & Hs & _).
  - vm_compute; reflexivity.
  - vm_compute; reflexivity.
  - vm_compute; reflexivity.
  - vm_compute; reflexivity.
  - cbv zeta. rewrite E, Hs. split; vm_compute; reflexivity.
Defined.

Lemma ChangePassword_then_Login_witness :
  let changed := auth.ChangePassword (mkNewPassword "a@x.com" "password1" "newpass1")
                   registered in
  fst changed = None
  /\ fst (fst (fst (fst (auth.Login (mkLoginUser "a@x.com" "newpass1") (snd changed)))))
     = Some alice.
Proof.
  destruct (ChangePassword_then_Login (mkNewPassword "a@x.com" "password1" "newpass1")
              registered alice (String (Ascii.ascii_of_N 5) "password1")
              (String (Ascii.ascii_of_N 6) "newpass1")) as (E & L & _).
  - exact standin_bcrypt_sound.
  - vm_compute; reflexivity.
  - vm_compute; reflexivity.
  - vm_compute; reflexivity.
  - vm_compute; reflexivity.
  - vm_compute; reflexivity.
  - vm_compute; reflexivity.
  - split; [exact E|exact L].
Defined.

Lemma unknown_email_NotFound_witness :
  fst (auth.ChangePassword (mkNewPassword "nouser@x.com" "password1" "newpass1") registered)
  = Some (Wrap "services.auth.ChangePassword" auth.ErrUserNotFound)
  /\ fst (auth.ResetPassword (mkResetPassword "nouser@x.com") registered)
  = Some (Wrap "services.auth.ResetPassword" auth.ErrUserNotFound).
Proof.
  assert (unknown_email "nouser@x.com" registered) as Hu.
  { eexists. split; vm_compute; reflexivity. }
  destruct (unknown_email_NotFound "nouser@x.com" "password1" "newpass1" registered Hu)
    as (C & R & _).
  split; [exact C|exact R].
Defined.

Lemma Handler_Login_conflict_witness :
  fst (authhandler.Login (mkLoginUser "a@x.com" "wrongpw") registered)
  = fst (authhandler.Login (mkLoginUser "nouser@x.com" "anything") registered).
Proof.
  assert (unknown_email "nouser@x.com" registered) as Hu.
  { eexists. split; vm_compute; reflexivity. }
  assert (wrong_password (mkLoginUser "a@x.com" "wrongpw") registered) as Hw.
  { eexists _, _. split; [vm_compute; reflexivity|].
    split; [vm_compute; reflexivity|]. vm_compute. discriminate. }
  exact (eq_trans
           (Handler_Login_conflict (mkLoginUser "a@x.com" "wrongpw") registered
              (or_intror Hw))
           (eq_sym (Handler_Login_conflict (mkLoginUser "nouser@x.com" "anything")
                      registered (or_introl Hu)))).
Defined.

Lemma Handler_ChangePassword_unknown_email_witness :
  authhandler.code
    (fst (authhandler.ChangePassword (mkNewPassword "nouser@x.com" "password1" "newpass1")
            registered)) = 500.
Proof.
  rewrite (Handler_ChangePassword_unknown_email
             (mkNewPassword "nouser@x.com" "password1" "newpass1") registered).
  - reflexivity.
  - eexists. split; vm_compute; reflexivity.
Defined.

Lemma Handler_ChangePassword_wrong_old_witness :
  let r := fst (authhandler.ChangePassword (mkNewPassword "a@x.com" "wrongpw" "newpass1")
                  registered) in
  authhandler.code r = 409 /\ authhandler.body_Status r = 400.
Proof.
  cbv zeta.
  rewrite (Handler_ChangePassword_wrong_old
             (mkNewPassword "a@x.com" "wrongpw" "newpass1") registered alice
             (String (Ascii.ascii_of_N 5) "password1")).
  - split; reflexivity.
  - vm_compute; reflexivity.
  - vm_compute; reflexivity.
  - vm_compute; discriminate.
Defined.

Lemma Handler_Register_never_conflict_witness :
  authhandler.code
    (fst (authhandler.Register (mkRegisterUser "a@x.com" "password2") registered)) <> 409.
Proof.
  exact (proj1 (Handler_Register_never_conflict (mkRegisterUser "a@x.com" "password2")
                  registered standin_bcrypt_errors)).
Defined.

End MoreServiceRuns.

Section MoreUserRuns.
Import scenario.


Lemma CreateUser_then_GetUserByEmail_witness :
  fst (userservice.GetUserByEmail "a@x.com"
         (snd (userservice.CreateUser "a@x.com" (users w0)))) = Ok alice.
Proof.
  apply (CreateUser_then_GetUserByEmail "a@x.com" (users w0) alice).
  vm_compute; reflexivity.
Defined.


Lemma UpdateInfo_username_only_witness :
  let r := fst (userdata.UpdateInfo jwt.NewPairTokens "user3"
                  (userdata.mkNewUserInfo "" "" "" "alice" "") profiles) in
  fst (fst (fst r)) = None /\ snd (fst (fst r)) <> jwt.no_token /\ snd r = None.
Proof.
  cbv zeta.
  erewrite (UpdateInfo_username_only jwt.NewPairTokens "user3"
              (userdata.mkNewUserInfo "" "" "" "alice" "") profiles).
  - split; [reflexivity|]. split; [discriminate|reflexivity].
  - reflexivity.
  - reflexivity.
  - discriminate.
  - vm_compute; reflexivity.
  - reflexivity.
Defined.

Lemma UpdateInfo_no_username_no_tokens_witness :
  snd (fst (fst (fst (userdata.UpdateInfo jwt.NewPairTokens "user3"
                        (userdata.mkNewUserInfo "" "" "" "" "Alice") profiles))))
  = jwt.no_token.
Proof.
  apply (UpdateInfo_no_username_no_tokens jwt.NewPairTokens jwt.NewPairTokens "user3"
           (userdata.mkNewUserInfo "" "" "" "" "Alice") profiles).
  reflexivity.
Defined.

Lemma UpdateInfo_partial_witness :
  let r := userdata.UpdateInfo jwt.NewPairTokens "user3"
             (userdata.mkNewUserInfo "taken@x.com" "" "" "" "Alice") profiles in
  snd (fst r) = Some (Wrap "services.user.UpdateInfo" userdata.ErrEmailExists)
  /\ userdata.ui_Name (users (snd r)) = "Alice".
Proof.
  edestruct (UpdateInfo_partial jwt.NewPairTokens "user3"
               (userdata.mkNewUserInfo "taken@x.com" "" "" "" "Alice") profiles)
    as (E & Hu).
  - discriminate.
  - discriminate.
  - vm_compute; reflexivity.
  - vm_compute; reflexivity.
  - cbv zeta. rewrite E, Hu. split; vm_compute; reflexivity.
Defined.

End MoreUserRuns.
